(** * Multi-Agent AI Blog Generator: a shallow embedding of [streamlit_app.py]

    The script chains six calls to a chat-completion provider (research,
    outline, writing, editing, SEO, finalizer).  This development embeds the
    prompt builders, [call_llm], the six agents and the orchestration block
    that runs when the "Generate" button is pressed, and states the
    properties of the specification over that embedding.

    Conventions.
    - A Python [str] is a sequence of Unicode code points: [str := list N].
      String literals of the script are written [utf8 "..."], the decoding of
      the UTF-8 bytes of the literal.
    - A value that is a [str] or [None] (the provider's [message.content]) is
      an [option str].
    - The script mutates three things: the provider (one request per call),
      the page (Streamlit elements, in order) and its own variables.  They are
      threaded explicitly in a [World]; an uncaught Python exception is the
      [Raise] result. *)

From Stdlib Require Import List String Ascii ZArith NArith QArith Bool Lia.
From Stdlib Require Import DecimalString.
Import ListNotations.

Local Open Scope list_scope.

(** ** Python strings *)

Definition char := N.
Definition str := list char.

(** Decoding of a UTF-8 byte string into code points (used for the literals of
    the script only; those are well-formed UTF-8). *)
Fixpoint utf8 (s : string) : str :=
  match s with
  | EmptyString => []
  | String a s1 =>
    let x := N_of_ascii a in
    if (x <? 128)%N then x :: utf8 s1 else
    match s1 with
    | EmptyString => [x]
    | String b s2 =>
      let y := (N_of_ascii b - 128)%N in
      if (x <? 224)%N then ((x - 192) * 64 + y)%N :: utf8 s2 else
      match s2 with
      | EmptyString => [x; y]
      | String c s3 =>
        let z := (N_of_ascii c - 128)%N in
        if (x <? 240)%N then ((x - 224) * 4096 + y * 64 + z)%N :: utf8 s3 else
        match s3 with
        | EmptyString => [x; y; z]
        | String d s4 =>
          let t := (N_of_ascii d - 128)%N in
          ((x - 240) * 262144 + y * 4096 + z * 64 + t)%N :: utf8 s4
        end
      end
    end
  end.

(** [s.encode("utf-8")]: the bytes of [s], or [None] where Python raises
    [UnicodeEncodeError] (a lone surrogate code point). *)
Definition is_surrogate (c : char) : bool := ((55296 <=? c) && (c <=? 57343))%N.

Definition encode_char (c : char) : option (list N) :=
  if (c <? 128)%N then Some [c]
  else if (c <? 2048)%N then Some [192 + c / 64; 128 + c mod 64]%N
  else if is_surrogate c then None
  else if (c <? 65536)%N then
    Some [224 + c / 4096; 128 + (c / 64) mod 64; 128 + c mod 64]%N
  else
    Some [240 + c / 262144; 128 + (c / 4096) mod 64;
          128 + (c / 64) mod 64; 128 + c mod 64]%N.

Fixpoint encode (s : str) : option (list N) :=
  match s with
  | [] => Some []
  | c :: s' =>
    match encode_char c, encode s' with
    | Some b, Some bs => Some (b ++ bs)
    | _, _ => None
    end
  end.

(** Truthiness of a [str]: [if s] / [not s]. *)
Definition truthy (s : str) : bool :=
  match s with [] => false | _ :: _ => true end.

(** [str(v)] inside an f-string, for a value that is a [str] or [None]. *)
Definition fmt (v : option str) : str :=
  match v with
  | Some s => s
  | None => utf8 "None"
  end.

(** [str(n)] for an [int]. *)
Definition str_of_int (n : Z) : str :=
  utf8 (NilZero.string_of_int (Z.to_int n)).

Definition nl : str := [10%N].
Definition dquote : str := [34%N].
Definition comma : char := 44%N.

(** [sep.join(xs)] *)
Fixpoint join (sep : str) (xs : list str) : str :=
  match xs with
  | [] => []
  | [x] => x
  | x :: xs' => x ++ sep ++ join sep xs'
  end.

(** [s.split(",")] for a one-character separator: never the empty list. *)
Fixpoint split (sep : char) (s : str) : list str :=
  match s with
  | [] => [[]]
  | c :: s' =>
    if (c =? sep)%N then [] :: split sep s'
    else match split sep s' with
         | [] => [[c]]
         | p :: ps => (c :: p) :: ps
         end
  end.

(** The characters [str.strip()] removes: those for which [str.isspace] holds
    (CPython's [_PyUnicode_IsWhitespace]). *)
Definition is_space (c : char) : bool :=
  (((9 <=? c) && (c <=? 13)) || ((28 <=? c) && (c <=? 32))
   || (c =? 133) || (c =? 160) || (c =? 5760)
   || ((8192 <=? c) && (c <=? 8202))
   || (c =? 8232) || (c =? 8233) || (c =? 8239) || (c =? 8287)
   || (c =? 12288))%N.

Fixpoint lstrip (s : str) : str :=
  match s with
  | [] => []
  | c :: s' => if is_space c then lstrip s' else s
  end.

Definition rstrip (s : str) : str := rev (lstrip (rev s)).

Definition strip (s : str) : str := rstrip (lstrip s).

(** [s.replace(a, b)] for one-character [a] and [b]. *)
Definition replace (a b : char) (s : str) : str :=
  map (fun c => if (c =? a)%N then b else c) s.

(** [needle in hay] *)
Fixpoint prefixb (p s : str) : bool :=
  match p, s with
  | [], _ => true
  | _ :: _, [] => false
  | a :: p', b :: s' => (a =? b)%N && prefixb p' s'
  end.

Fixpoint containsb (needle hay : str) : bool :=
  prefixb needle hay ||
  match hay with
  | [] => false
  | _ :: hay' => containsb needle hay'
  end.

Definition contains (needle hay : str) : Prop :=
  exists pre post, hay = pre ++ needle ++ post.

(** The keyword list of the orchestration block:
    [[k.strip() for k in keywords.split(",") if k.strip()] if keywords else []] *)
Definition kw_list (keywords : str) : list str :=
  if truthy keywords
  then map strip (filter (fun k => truthy (strip k)) (split comma keywords))
  else [].

(** ** The provider, the page and the script's variables *)

(** One entry of the [messages] list: [{"role": ..., "content": ...}]. *)
Record Message := { msg_role : str; msg_content : str }.

(** What [call_llm] hands to the SDK: the client's [api_key] ([None] when the
    key is empty) and the arguments of [chat.completions.create]. *)
Record Request := {
  req_api_key : option str;
  req_model : str;
  req_messages : list Message;
  req_temperature : Q;
  req_max_tokens : Z
}.

(** What the SDK does with a request: it raises (with the status and message
    the provider reported), or returns a response whose [choices] carry a
    [message.content] each, a [str] or [None]. *)
Inductive Response :=
| Raises (status : option Z) (message : str)
| Returns (choices : list (option str)).

(** The provider is a black box: its answer may depend on the request and on
    everything it was asked before. *)
Definition Provider := list Request -> Request -> Response.

Inductive exn :=
| ProviderError (status : option Z) (message : str)
| IndexError
| AttributeError
| UnicodeEncodeError
| StopException.

(** [@dataclass class AgentResult] *)
Record AgentResult := { role : str; output : option str }.

(** Streamlit elements the orchestration block puts on the page.  An
    [Expander] holds the one [st.markdown] body written inside it. *)
Inductive Element :=
| Error (body : str)
| Spinner (text : str)
| Expander (label : str) (expanded : bool) (body : option str)
| Success (body : str)
| DownloadButton (label : str) (data : list N) (file_name : str) (mime : str)
| Markdown (body : option str).

Record World := {
  calls : list Request;
  page : list Element;
  vars : list (string * AgentResult)
}.

Definition empty_world : World := {| calls := []; page := []; vars := [] |}.

Inductive Result (A : Type) :=
| Ok (a : A)
| Raise (e : exn).
Arguments Ok {A} a.
Arguments Raise {A} e.

Definition M (A : Type) : Type := World -> Result A * World.

Definition ret {A} (a : A) : M A := fun w => (Ok a, w).

Definition bind {A B} (m : M A) (k : A -> M B) : M B :=
  fun w =>
    match m w with
    | (Ok a, w') => k a w'
    | (Raise e, w') => (Raise e, w')
    end.

Definition raise {A} (e : exn) : M A := fun w => (Raise e, w).

Declare Scope script_scope.
Delimit Scope script_scope with script.
Notation "x <- m ;; k" := (bind m (fun x => k))
  (at level 61, m at next level, right associativity) : script_scope.
Notation "m ;; k" := (bind m (fun _ => k))
  (at level 61, right associativity) : script_scope.
Local Open Scope script_scope.

Definition when (b : bool) (m : M unit) : M unit := if b then m else ret tt.

Definition show (el : Element) : M unit :=
  fun w => (Ok tt, {| calls := calls w; page := page w ++ [el]; vars := vars w |}).

(** [x = v] at the top level of the script. *)
Definition assign (x : string) (v : AgentResult) : M unit :=
  fun w => (Ok tt, {| calls := calls w; page := page w; vars := vars w ++ [(x, v)] |}).

(** [st.stop()] *)
Definition st_stop : M unit := raise StopException.

Definition system_msg (s : str) : Message := {| msg_role := utf8 "system"; msg_content := s |}.
Definition user_msg (s : str) : Message := {| msg_role := utf8 "user"; msg_content := s |}.

(** The sidebar widgets, read by the agents as module globals. *)
Record Settings := {
  api_key : str;
  model : str;
  temperature : Q;
  max_tokens : Z;
  show_steps : bool
}.

(** The widgets of the main column. *)
Record Form := {
  topic : str;
  audience : str;
  tone : str;
  word_target : Z;
  keywords : str;
  run_button : bool
}.

(** ** Prompts *)

(** [', '.join(keywords) if keywords else 'N/A'] *)
Definition keywords_field (keywords : list str) : str :=
  match keywords with
  | [] => utf8 "N/A"
  | _ :: _ => join (utf8 ", ") keywords
  end.

Definition research_system : str :=
  utf8 "You are a meticulous research analyst. You gather factual points, recent statistics (with source names), and 5-8 key references/links. Use bullet points.".

Definition research_user (topic audience tone : str) (keywords : list str) : str :=
  nl ++ utf8 "Topic: " ++ topic ++ nl
  ++ utf8 "Audience: " ++ audience ++ nl
  ++ utf8 "Tone: " ++ tone ++ nl
  ++ utf8 "Target keywords: " ++ keywords_field keywords ++ nl
  ++ nl
  ++ utf8 "Return:" ++ nl
  ++ utf8 "- 8-12 bullet points of facts with brief context" ++ nl
  ++ utf8 "- A short list of recent stats (if relevant)" ++ nl
  ++ utf8 "- 5-8 suggested sources/links (non-paywalled when possible)" ++ nl
  ++ utf8 "Avoid fabricating URLs." ++ nl.

Definition outline_system : str :=
  utf8 "You are a senior content strategist. Create a logical, SEO-friendly outline for a long-form blog post.".

Definition outline_user (topic audience tone : str) (keywords : list str)
    (research : option str) (word_target : Z) : str :=
  nl ++ utf8 "Create an outline for a blog post on: " ++ dquote ++ topic ++ dquote ++ utf8 "." ++ nl
  ++ utf8 "Audience: " ++ audience ++ nl
  ++ utf8 "Tone: " ++ tone ++ nl
  ++ utf8 "Target keywords: " ++ keywords_field keywords ++ nl
  ++ utf8 "Word target: ~" ++ str_of_int word_target ++ utf8 " words." ++ nl
  ++ nl
  ++ utf8 "Use the research below to inform structure (do not repeat it verbatim):" ++ nl
  ++ utf8 "---" ++ nl
  ++ fmt research ++ nl
  ++ utf8 "---" ++ nl
  ++ nl
  ++ utf8 "Return:" ++ nl
  ++ utf8 "- Title ideas (3)" ++ nl
  ++ utf8 "- H1" ++ nl
  ++ utf8 "- H2/H3 outline with approximate word counts" ++ nl
  ++ utf8 "- Notes on where to include stats, examples, or visuals" ++ nl
  ++ utf8 "- Suggested internal/external links placement" ++ nl.

Definition writing_system : str :=
  utf8 "You are a staff content writer. Produce clear, engaging, well-structured markdown content following the outline. Cite sources inline when appropriate.".

Definition writing_user (topic audience tone : str) (outline research : option str) : str :=
  nl ++ utf8 "Write the full draft in **markdown** for the topic " ++ dquote ++ topic ++ dquote ++ utf8 "." ++ nl
  ++ utf8 "Audience: " ++ audience ++ nl
  ++ utf8 "Tone: " ++ tone ++ nl
  ++ nl
  ++ utf8 "Follow this outline strictly:" ++ nl
  ++ utf8 "---" ++ nl
  ++ fmt outline ++ nl
  ++ utf8 "---" ++ nl
  ++ nl
  ++ utf8 "Incorporate relevant points from this research when helpful:" ++ nl
  ++ utf8 "---" ++ nl
  ++ fmt research ++ nl
  ++ utf8 "---" ++ nl
  ++ nl
  ++ utf8 "Guidelines:" ++ nl
  ++ utf8 "- Use headings (#, ##, ###), short paragraphs, and occasional bullet lists." ++ nl
  ++ utf8 "- Add a table of contents placeholder." ++ nl
  ++ utf8 "- Keep claims grounded; when referencing a stat or specific figure, attribute it (e.g., "
  ++ dquote ++ utf8 "(Source: Organization, Year)" ++ dquote ++ utf8 ")." ++ nl
  ++ utf8 "- Avoid fabricating links; reference source names even if link unknown." ++ nl.

Definition editing_system : str :=
  utf8 "You are a seasoned editor focused on clarity, flow, and correctness. Keep the author's voice while tightening.".

Definition editing_user (draft_md : option str) (audience tone : str) : str :=
  nl ++ utf8 "Edit the following markdown draft for clarity, flow, correctness, and concision. Maintain the intended tone: "
  ++ tone ++ utf8 ". Preserve markdown structure." ++ nl
  ++ nl
  ++ utf8 "---" ++ nl
  ++ fmt draft_md ++ nl
  ++ utf8 "---" ++ nl
  ++ nl
  ++ utf8 "Return the revised **markdown** in full." ++ nl.

Definition seo_system : str :=
  utf8 "You are an SEO specialist. You craft metadata and on-page recommendations.".

Definition seo_user (topic audience : str) (keywords : list str) (draft_md : option str) : str :=
  nl ++ utf8 "Based on the markdown draft below, produce:" ++ nl
  ++ utf8 "- Final SEO title (≤ 60 chars if possible)" ++ nl
  ++ utf8 "- Meta description (≤ 155 chars)" ++ nl
  ++ utf8 "- URL slug" ++ nl
  ++ utf8 "- Primary keyword + 4-8 secondary keywords" ++ nl
  ++ utf8 "- 5-7 FAQs (Q&A pairs) to append as an FAQ section" ++ nl
  ++ utf8 "- Recommended internal link anchors (generic) and external link types" ++ nl
  ++ nl
  ++ utf8 "Draft:" ++ nl
  ++ utf8 "---" ++ nl
  ++ fmt draft_md ++ nl
  ++ utf8 "---" ++ nl.

Definition finalizer_system : str :=
  utf8 "You are a content packager. You assemble final deliverables.".

Definition finalizer_user (draft_md seo : option str) : str :=
  nl ++ utf8 "Combine the edited markdown with the SEO pack. Append an **FAQ** section if provided by SEO. Ensure a clean Table of Contents placeholder after the H1. Return final markdown only." ++ nl
  ++ nl
  ++ utf8 "Edited Draft:" ++ nl
  ++ utf8 "---" ++ nl
  ++ fmt draft_md ++ nl
  ++ utf8 "---" ++ nl
  ++ nl
  ++ utf8 "SEO Pack:" ++ nl
  ++ utf8 "---" ++ nl
  ++ fmt seo ++ nl
  ++ utf8 "---" ++ nl.

(** ** The completion client and the agents *)

Section Script.

(** The provider behind the SDK, and [str.lower] (a table of the Unicode
    database, used for the download's file name only). *)
Variable provider : Provider.
Variable lower : str -> str.

(** [call_llm]: one [chat.completions.create] call; returns
    [resp.choices[0].message.content] as it is. *)
Definition call_llm (messages : list Message) (api_key model : str)
    (temperature : Q) (max_tokens : Z) : M (option str) :=
  fun w =>
    let req := {| req_api_key := if truthy api_key then Some api_key else None;
                  req_model := model;
                  req_messages := messages;
                  req_temperature := temperature;
                  req_max_tokens := max_tokens |} in
    let w' := {| calls := calls w ++ [req]; page := page w; vars := vars w |} in
    match provider (calls w) req with
    | Raises status message => (Raise (ProviderError status message), w')
    | Returns [] => (Raise IndexError, w')
    | Returns (c :: _) => (Ok c, w')
    end.

Variable g : Settings.

Definition research_agent (topic audience tone : str) (keywords : list str)
    : M AgentResult :=
  let system := research_system in
  let user := research_user topic audience tone keywords in
  out <- call_llm [system_msg system; user_msg user]
                  (api_key g) (model g) (4 # 10) (max_tokens g) ;;
  ret {| role := utf8 "Research Agent"; output := out |}.

Definition outline_agent (topic audience tone : str) (keywords : list str)
    (research : option str) (word_target : Z) : M AgentResult :=
  let system := outline_system in
  let user := outline_user topic audience tone keywords research word_target in
  out <- call_llm [system_msg system; user_msg user]
                  (api_key g) (model g) (5 # 10) (max_tokens g) ;;
  ret {| role := utf8 "Outline Agent"; output := out |}.

Definition writing_agent (topic audience tone : str) (outline research : option str)
    : M AgentResult :=
  let system := writing_system in
  let user := writing_user topic audience tone outline research in
  out <- call_llm [system_msg system; user_msg user]
                  (api_key g) (model g) (8 # 10) (max_tokens g) ;;
  ret {| role := utf8 "Writing Agent"; output := out |}.

Definition editing_agent (draft_md : option str) (audience tone : str)
    : M AgentResult :=
  let system := editing_system in
  let user := editing_user draft_md audience tone in
  out <- call_llm [system_msg system; user_msg user]
                  (api_key g) (model g) (3 # 10) (max_tokens g) ;;
  ret {| role := utf8 "Editing Agent"; output := out |}.

Definition seo_agent (topic audience : str) (keywords : list str)
    (draft_md : option str) : M AgentResult :=
  let system := seo_system in
  let user := seo_user topic audience keywords draft_md in
  out <- call_llm [system_msg system; user_msg user]
                  (api_key g) (model g) (5 # 10) (max_tokens g) ;;
  ret {| role := utf8 "SEO Agent"; output := out |}.

Definition finalizer_agent (draft_md seo : option str) : M AgentResult :=
  let system := finalizer_system in
  let user := finalizer_user draft_md seo in
  out <- call_llm [system_msg system; user_msg user]
                  (api_key g) (model g) (2 # 10) (max_tokens g) ;;
  ret {| role := utf8 "Finalizer"; output := out |}.

(** ** Orchestration *)

(** [f.output.encode("utf-8")] *)
Definition encode_output (v : option str) : M (list N) :=
  match v with
  | None => raise AttributeError
  | Some s =>
    match encode s with
    | None => raise UnicodeEncodeError
    | Some bytes => ret bytes
    end
  end.

(** [f"{topic.strip().lower().replace(' ', '_')}.md"] *)
Definition file_name_of (topic : str) : str :=
  replace 32%N 95%N (lower (strip topic)) ++ utf8 ".md".

(** The block under [if run_button:]. *)
Definition orchestrate (i : Form) : M unit :=
  when (run_button i) (
    when (negb (truthy (api_key g))) (
      show (Error (utf8 "Please provide an OpenAI API key in the sidebar.")) ;;
      st_stop) ;;
    when (negb (truthy (topic i)) || negb (truthy (audience i))) (
      show (Error (utf8 "Please fill in both Topic and Audience.")) ;;
      st_stop) ;;
    let kw_list := kw_list (keywords i) in

    show (Spinner (utf8 "Researching...")) ;;
    r <- research_agent (topic i) (audience i) (tone i) kw_list ;;
    assign "r" r ;;
    when (show_steps g)
      (show (Expander (utf8 "🔎 Research Agent Output") true (output r))) ;;

    show (Spinner (utf8 "Creating outline...")) ;;
    o <- outline_agent (topic i) (audience i) (tone i) kw_list (output r) (word_target i) ;;
    assign "o" o ;;
    when (show_steps g)
      (show (Expander (utf8 "🧭 Outline Agent Output") false (output o))) ;;

    show (Spinner (utf8 "Drafting content...")) ;;
    w <- writing_agent (topic i) (audience i) (tone i) (output o) (output r) ;;
    assign "w" w ;;
    when (show_steps g)
      (show (Expander (utf8 "✍️ Writing Agent Output") false (output w))) ;;

    show (Spinner (utf8 "Editing draft...")) ;;
    e <- editing_agent (output w) (audience i) (tone i) ;;
    assign "e" e ;;
    when (show_steps g)
      (show (Expander (utf8 "🧹 Editing Agent Output") false (output e))) ;;

    show (Spinner (utf8 "Preparing SEO pack...")) ;;
    s <- seo_agent (topic i) (audience i) kw_list (output e) ;;
    assign "s" s ;;
    when (show_steps g)
      (show (Expander (utf8 "🔍 SEO Agent Output") false (output s))) ;;

    show (Spinner (utf8 "Finalizing...")) ;;
    f <- finalizer_agent (output e) (output s) ;;
    assign "f" f ;;

    show (Success (utf8 "✅ Blog post generated!")) ;;
    data <- encode_output (output f) ;;
    show (DownloadButton (utf8 "📥 Download Markdown") data
            (file_name_of (topic i)) (utf8 "text/markdown")) ;;
    show (Markdown (Some (utf8 "### 🧾 Final Output"))) ;;
    show (Markdown (output f))
  ).

End Script.

(** ** Vocabulary of the properties *)

Definition starts_with_space (s : str) : bool :=
  match s with
  | [] => false
  | c :: _ => is_space c
  end.

Definition ends_with_space (s : str) : bool := starts_with_space (rev s).

(** The request an agent builds from the sidebar settings, its two messages
    and its own temperature. *)
Definition stage_request (g : Settings) (system user : str) (temp : Q) : Request :=
  {| req_api_key := if truthy (api_key g) then Some (api_key g) else None;
     req_model := model g;
     req_messages := [system_msg system; user_msg user];
     req_temperature := temp;
     req_max_tokens := max_tokens g |}.

(** The six requests of a run, given the outputs they are built from. *)
Definition research_request (g : Settings) (i : Form) : Request :=
  stage_request g research_system
    (research_user (topic i) (audience i) (tone i) (kw_list (keywords i))) (4 # 10).

Definition outline_request (g : Settings) (i : Form) (r : option str) : Request :=
  stage_request g outline_system
    (outline_user (topic i) (audience i) (tone i) (kw_list (keywords i)) r
       (word_target i))
    (5 # 10).

Definition writing_request (g : Settings) (i : Form) (o r : option str) : Request :=
  stage_request g writing_system
    (writing_user (topic i) (audience i) (tone i) o r) (8 # 10).

Definition editing_request (g : Settings) (i : Form) (d : option str) : Request :=
  stage_request g editing_system (editing_user d (audience i) (tone i)) (3 # 10).

Definition seo_request (g : Settings) (i : Form) (e : option str) : Request :=
  stage_request g seo_system
    (seo_user (topic i) (audience i) (kw_list (keywords i)) e) (5 # 10).

Definition finalizer_request (g : Settings) (e s : option str) : Request :=
  stage_request g finalizer_system (finalizer_user e s) (2 # 10).

(** The world after one more request went to the provider. *)
Definition sent (w : World) (req : Request) : World :=
  {| calls := calls w ++ [req]; page := page w; vars := vars w |}.

(** What an agent makes of the provider's answer. *)
Definition answer (name : str) (resp : Response) : Result AgentResult :=
  match resp with
  | Raises status message => Raise (ProviderError status message)
  | Returns [] => Raise IndexError
  | Returns (c :: _) => Ok {| role := name; output := c |}
  end.

(** An agent sends one request, with the shared settings and temperature
    [temp], whatever the provider answers. *)
Definition sends_with (g : Settings) (temp : Q) (agent : M AgentResult) : Prop :=
  forall w, exists req,
    snd (agent w) = sent w req /\
    req_temperature req = temp /\
    req_model req = model g /\
    req_max_tokens req = max_tokens g /\
    req_api_key req = (if truthy (api_key g) then Some (api_key g) else None).

(** The five stages in pipeline order: the variable each result is bound to,
    the [role] of the result, and the spinner text, expander label and
    [expanded] flag of its display. *)
Definition stage_vars : list string := ["r"; "o"; "w"; "e"; "s"]%string.

Definition stage_roles : list str :=
  [utf8 "Research Agent"; utf8 "Outline Agent"; utf8 "Writing Agent";
   utf8 "Editing Agent"; utf8 "SEO Agent"].

Definition stage_displays : list (str * str * bool) :=
  [(utf8 "Researching...", utf8 "🔎 Research Agent Output", true);
   (utf8 "Creating outline...", utf8 "🧭 Outline Agent Output", false);
   (utf8 "Drafting content...", utf8 "✍️ Writing Agent Output", false);
   (utf8 "Editing draft...", utf8 "🧹 Editing Agent Output", false);
   (utf8 "Preparing SEO pack...", utf8 "🔍 SEO Agent Output", false)].

(** The results of the first [length outs] stages, given their outputs. *)
Definition stage_results (outs : list (option str)) : list AgentResult :=
  map (fun p => {| role := fst p; output := snd p |}) (combine stage_roles outs).

Definition stage_bindings (outs : list (option str)) : list (string * AgentResult) :=
  combine stage_vars (stage_results outs).

(** What one stage leaves on the page: its spinner and, when the
    "show intermediate outputs" box is ticked, its expander. *)
Definition stage_block (g : Settings) (spinner label : str) (expanded : bool)
    (out : option str) : list Element :=
  Spinner spinner :: (if show_steps g then [Expander label expanded out] else []).

Definition stage_pages (g : Settings) (outs : list (option str)) : list Element :=
  List.concat (map (fun p => stage_block g (fst (fst (fst p))) (snd (fst (fst p)))
                          (snd (fst p)) (snd p))
              (combine stage_displays outs)).

(** The end of the page after a successful run. *)
Definition final_page (file_name : str) (f : str) (data : list N) : list Element :=
  [Spinner (utf8 "Finalizing...");
   Success (utf8 "✅ Blog post generated!");
   DownloadButton (utf8 "📥 Download Markdown") data file_name (utf8 "text/markdown");
   Markdown (Some (utf8 "### 🧾 Final Output"));
   Markdown (Some f)].

(** A provider stub that answers every request with one non-empty text
    (a [str] that UTF-8 can encode). *)
Definition returns_text (provider : Provider) : Prop :=
  forall h req, exists s rest,
    provider h req = Returns (Some s :: rest) /\ s <> [] /\ encode s <> None.

(** A provider stub that fails on the third request it receives and on no
    other. *)
Definition fails_on_third_only (provider : Provider) : Prop :=
  (forall h req, List.length h = 2%nat -> exists status message,
      provider h req = Raises status message) /\
  (forall h req, List.length h <> 2%nat -> exists c cs,
      provider h req = Returns (c :: cs)).

(** A provider stub whose answer depends on the request alone. *)
Definition deterministic (provider : Provider) : Prop :=
  forall h1 h2 req, provider h1 req = provider h2 req.

(** The marker the prompts carry in place of an empty keyword list. *)
Definition keywords_label : str := utf8 "Target keywords".
Definition no_keywords_marker : str := utf8 "N/A".
Definition empty_keywords_field : str := utf8 "Target keywords: N/A".

(** Example values. *)
Definition example_settings : Settings :=
  {| api_key := utf8 "sk-test"; model := utf8 "gpt-4o-mini";
     temperature := 7 # 10; max_tokens := 1200; show_steps := true |}.

Definition example_form : Form :=
  {| topic := utf8 "Remote Work Productivity"; audience := utf8 "HR managers";
     tone := utf8 "Professional"; word_target := 1200;
     keywords := utf8 "remote work, productivity"; run_button := true |}.

Definition empty_topic_form : Form :=
  {| topic := []; audience := utf8 "HR managers";
     tone := utf8 "Professional"; word_target := 1200;
     keywords := []; run_button := true |}.

Definition example_draft : option str := Some (utf8 "# Remote Work").

Definition fixed_stub : Provider :=
  fun _ _ => Returns [Some (utf8 "# Post")].

Definition third_call_fails : Provider :=
  fun h _ =>
    if Nat.eqb (List.length h) 2
    then Raises (Some 429%Z) (utf8 "rate limit")
    else Returns [Some (utf8 "text")].

Definition no_text_stub : Provider := fun _ _ => Returns [None].

Definition empty_text_stub : Provider := fun _ _ => Returns [Some []].

Definition always_fails : Provider :=
  fun _ _ => Raises (Some 401%Z) (utf8 "invalid api key").

Definition example_request : Request :=
  {| req_api_key := Some (utf8 "sk-test"); req_model := utf8 "gpt-4o-mini";
     req_messages := []; req_temperature := 4 # 10; req_max_tokens := 1200 |}.

(** ASCII-only lower-casing, an instance of [lower] for the examples. *)
Definition ascii_lower (s : str) : str :=
  map (fun c => if ((65 <=? c) && (c <=? 90))%N then (c + 32)%N else c) s.

(** ** Vocabulary of the further properties *)

(** A keyword as [kw_list] returns it: non-empty, without a comma, without
    whitespace at either end. *)
Definition clean_keyword (k : str) : Prop :=
  k <> [] /\ ~ In comma k /\
  starts_with_space k = false /\ ends_with_space k = false.

(** The sidebar settings with another temperature, or another
    "show intermediate outputs" box. *)
Definition with_temperature (t : Q) (g : Settings) : Settings :=
  {| api_key := api_key g; model := model g; temperature := t;
     max_tokens := max_tokens g; show_steps := show_steps g |}.

Definition with_show_steps (b : bool) (g : Settings) : Settings :=
  {| api_key := api_key g; model := model g; temperature := temperature g;
     max_tokens := max_tokens g; show_steps := b |}.

(** The provider answers, with at least one choice, each of the first [n]
    requests it receives. *)
Definition answers_first (n : nat) (provider : Provider) : Prop :=
  forall h req, (List.length h < n)%nat ->
    exists c cs, provider h req = Returns (c :: cs).

(** The exception [call_llm] raises on a provider answer, if any. *)
Definition failure_of (resp : Response) : option exn :=
  match resp with
  | Raises status message => Some (ProviderError status message)
  | Returns [] => Some IndexError
  | Returns (_ :: _) => None
  end.

(** The provider fails the request that comes after [n] others. *)
Definition fails_after (n : nat) (provider : Provider) : Prop :=
  forall h req, List.length h = n -> failure_of (provider h req) <> None.

(** The variables of a run, in the order they are assigned. *)
Definition run_vars : list string := stage_vars ++ ["f"%string].

(** How a run ends once the Finalizer has answered with content [f]. *)
Definition final_outcome (f : option str) : Result unit :=
  match f with
  | None => Raise AttributeError
  | Some t =>
    match encode t with
    | None => Raise UnicodeEncodeError
    | Some _ => Ok tt
    end
  end.

Definition is_download (el : Element) : bool :=
  match el with
  | DownloadButton _ _ _ _ => true
  | _ => false
  end.

Definition is_success (el : Element) : bool :=
  match el with
  | Success _ => true
  | _ => false
  end.

(** The provider answers request [req], asked after [h], with at least one
    choice, the first of content [c]. *)
Definition answered (provider : Provider) (h : list Request) (req : Request)
    (c : option str) : Prop :=
  exists cs, provider h req = Returns (c :: cs).

(** What follows the success notice on the page: the download button and the
    final output when the Finalizer's content [f] can be encoded, nothing
    otherwise. *)
Definition final_elements (file_name : str) (f : option str) : list Element :=
  match f with
  | None => []
  | Some t =>
    match encode t with
    | None => []
    | Some data =>
      [DownloadButton (utf8 "📥 Download Markdown") data file_name
         (utf8 "text/markdown");
       Markdown (Some (utf8 "### 🧾 Final Output"));
       Markdown (Some t)]
    end
  end.

(** The request log of a run in which all six calls were answered, with
    contents [r], [o], [d], [e], [s] for the five stages. *)
Definition run_requests (g : Settings) (i : Form) (r o d e s : option str)
    : list Request :=
  [research_request g i;
   outline_request g i r;
   writing_request g i o r;
   editing_request g i d;
   seo_request g i e;
   finalizer_request g e s].

(** A byte sequence as a string of the proof assistant, to read it back with
    [utf8]. *)
Fixpoint bytes_to_string (bytes : list N) : string :=
  match bytes with
  | [] => EmptyString
  | b :: bytes' => String (ascii_of_N b) (bytes_to_string bytes')
  end.

(** A code point that is a Unicode scalar value. *)
Definition is_scalar (c : char) : bool :=
  (c <? 1114112)%N && negb (is_surrogate c).

(** A provider stub that raises on the request after [n] others and answers
    the rest. *)
Definition fails_at (n : nat) : Provider :=
  fun h _ =>
    if Nat.eqb (List.length h) n
    then Raises (Some 500%Z) (utf8 "server error")
    else Returns [Some (utf8 "text")].

(** A provider stub whose answers carry no choice from the request after [n]
    others on. *)
Definition no_choice_at (n : nat) : Provider :=
  fun h _ =>
    if Nat.ltb (List.length h) n
    then Returns [Some (utf8 "text")]
    else Returns [].

(** A provider stub whose sixth answer has no content. *)
Definition sixth_is_none : Provider :=
  fun h _ =>
    if Nat.eqb (List.length h) 5
    then Returns [None]
    else Returns [Some (utf8 "text")].

Definition blank_keywords_form : Form :=
  {| topic := utf8 "Remote Work Productivity"; audience := utf8 "HR managers";
     tone := utf8 "Professional"; word_target := 1200;
     keywords := utf8 " , ,, "; run_button := true |}.

(** ** Strings: containment *)

Lemma contains_here (x post : str) : contains x (x ++ post).
Proof. exists [], post. reflexivity. Qed.

Lemma contains_app_r (x a b : str) : contains x b -> contains x (a ++ b).
Proof.
  intros (pre & post & ->). exists (a ++ pre), post.
  now rewrite <- app_assoc.
Qed.

Lemma contains_app_l (x a b : str) : contains x a -> contains x (a ++ b).
Proof.
  intros (pre & post & ->). exists pre, (post ++ b).
  now rewrite <- !app_assoc.
Qed.

Lemma prefixb_spec (p s : str) :
  prefixb p s = true <-> exists post, s = p ++ post.
Proof.
  revert s. induction p as [|a p IH]; intros s; simpl.
  - split; [intros _; now exists s | reflexivity].
  - destruct s as [|b s].
    + split; [discriminate | intros (post & H); discriminate].
    + rewrite andb_true_iff, N.eqb_eq, IH. split.
      * intros (-> & post & ->). now exists post.
      * intros (post & H). injection H as -> ->. split; [reflexivity | now exists post].
Qed.

Lemma containsb_spec (needle hay : str) :
  containsb needle hay = true <-> contains needle hay.
Proof.
  induction hay as [|c hay IH]; simpl.
  - rewrite orb_false_r, prefixb_spec. split.
    + intros (post & ->). apply contains_here.
    + intros (pre & post & H). symmetry in H.
      apply app_eq_nil in H as (-> & H). apply app_eq_nil in H as (-> & ->).
      now exists [].
  - rewrite orb_true_iff, prefixb_spec, IH. split.
    + intros [(post & ->) | H].
      * apply contains_here.
      * now apply (contains_app_r needle [c] hay).
    + intros (pre & post & H). destruct pre as [|d pre].
      * left. now exists post.
      * right. injection H as _ ->. now exists pre, post.
Qed.

Lemma not_contains (needle hay : str) :
  containsb needle hay = false -> ~ contains needle hay.
Proof.
  intros H C. apply containsb_spec in C. congruence.
Qed.

Lemma contains_two (x a b post : str) :
  x = a ++ b -> contains x (a ++ b ++ post).
Proof.
  intros ->. rewrite app_assoc. apply contains_here.
Qed.

(** Looks for the needle at the head of a right-nested concatenation. *)
Ltac find_part :=
  solve [ apply contains_here
        | apply contains_app_r; find_part ].

(** The same for a needle that spans two consecutive parts. *)
Ltac find_pair :=
  solve [ apply contains_two; reflexivity
        | apply contains_app_r; find_pair ].

(** ** Strings: [split] and [strip] *)

Lemma split_pieces (P : char -> Prop) (sep : char) (s : str) :
  Forall P s ->
  Forall (Forall (fun c => P c /\ c <> sep)) (split sep s).
Proof.
  induction 1 as [|c s Hc Hs IH]; simpl.
  - repeat constructor.
  - destruct (N.eqb_spec c sep) as [->|Hne].
    + constructor; [constructor | exact IH].
    + destruct (split sep s) as [|p ps].
      * repeat constructor; assumption.
      * inversion IH; subst. constructor; [|assumption].
        constructor; [split|]; assumption.
Qed.

Lemma lstrip_spaces (s : str) :
  Forall (fun c => is_space c = true) s -> lstrip s = [].
Proof.
  induction 1 as [|c s Hc _ IH]; simpl; [reflexivity|].
  now rewrite Hc.
Qed.

Lemma lstrip_head (s : str) : starts_with_space (lstrip s) = false.
Proof.
  induction s as [|c s IH]; simpl; [reflexivity|].
  destruct (is_space c) eqn:E; [exact IH | simpl; exact E].
Qed.

Lemma lstrip_keeps_last (l : str) (c : char) :
  is_space c = false -> exists u, lstrip (l ++ [c]) = u ++ [c].
Proof.
  intros Hc. induction l as [|d l IH]; simpl.
  - rewrite Hc. now exists [].
  - destruct (is_space d).
    + exact IH.
    + now exists (d :: l).
Qed.

Lemma rstrip_tail (s : str) : ends_with_space (rstrip s) = false.
Proof.
  unfold ends_with_space, rstrip. rewrite rev_involutive. apply lstrip_head.
Qed.

Lemma rstrip_head (s : str) :
  starts_with_space s = false -> starts_with_space (rstrip s) = false.
Proof.
  destruct s as [|c s]; [reflexivity|]. simpl. intros Hc.
  unfold rstrip. simpl rev.
  destruct (lstrip_keeps_last (rev s) c Hc) as (u & ->).
  rewrite rev_app_distr. simpl. exact Hc.
Qed.

Lemma strip_edges (s : str) :
  starts_with_space (strip s) = false /\ ends_with_space (strip s) = false.
Proof.
  unfold strip. split.
  - apply rstrip_head, lstrip_head.
  - apply rstrip_tail.
Qed.

Lemma strip_spaces (s : str) :
  Forall (fun c => is_space c = true) s -> strip s = [].
Proof.
  intros H. unfold strip. now rewrite (lstrip_spaces s H).
Qed.

Example kw_list_example :
  kw_list (utf8 " remote work ,, productivity ,") =
  [utf8 "remote work"; utf8 "productivity"].
Proof. reflexivity. Qed.

Example split_example :
  split comma (utf8 "a,,b") = [utf8 "a"; []; utf8 "b"].
Proof. reflexivity. Qed.

Lemma strip_filter_swap (pieces : list str) :
  map strip (filter (fun k => truthy (strip k)) pieces)
  = filter truthy (map strip pieces).
Proof.
  induction pieces as [|p ps IH]; [reflexivity|].
  cbn [map filter]. destruct (truthy (strip p)); cbn [map]; now rewrite IH.
Qed.

(** C10.  The keyword list is derived from the raw comma-separated input:
    it is the sequence of the comma-separated pieces, each stripped of
    surrounding whitespace, without the pieces that strip to nothing.  So
    every element is a non-empty string that neither starts nor ends with
    whitespace, every piece that holds more than whitespace is represented,
    and an input made only of commas and whitespace gives the empty list. *)
Theorem kw_list_clean (keywords : str) :
  kw_list keywords = filter truthy (map strip (split comma keywords)) /\
  (forall k, In k (kw_list keywords) ->
     k <> [] /\ starts_with_space k = false /\ ends_with_space k = false) /\
  (forall p, In p (split comma keywords) -> strip p <> [] ->
     In (strip p) (kw_list keywords)) /\
  (Forall (fun c => c = comma \/ is_space c = true) keywords ->
     kw_list keywords = []).
Proof.
  assert (Heq : kw_list keywords
                = filter truthy (map strip (split comma keywords))).
  { unfold kw_list. destruct keywords as [|c s]; [reflexivity|].
    cbn [truthy]. apply strip_filter_swap. }
  split; [exact Heq|]. split; [|split].
  - rewrite Heq. intros k Hk. apply filter_In in Hk as (Hk & Hne).
    apply in_map_iff in Hk as (p & <- & _).
    split; [|apply strip_edges].
    intros E. rewrite E in Hne. discriminate.
  - rewrite Heq. intros p Hp Hne. apply filter_In. split.
    + now apply in_map.
    + destruct (strip p); [congruence | reflexivity].
  - clear Heq. unfold kw_list. intros H. destruct (truthy keywords); [|reflexivity].
    apply (split_pieces _ comma) in H.
    induction H as [|p ps Hp _ IH]; simpl; [reflexivity|].
    rewrite strip_spaces; [exact IH|].
    eapply Forall_impl; [|exact Hp].
    simpl. intros c ([Hc | Hc] & Hne); [contradiction | exact Hc].
Qed.

Lemma kw_list_clean_witness :
  kw_list (utf8 " a , b c ,,") = [utf8 "a"; utf8 "b c"] /\
  (utf8 "b c" <> [] /\ starts_with_space (utf8 "b c") = false
   /\ ends_with_space (utf8 "b c") = false) /\
  In (utf8 "b c") (kw_list (utf8 " a , b c ,,")) /\
  kw_list (utf8 " , ,, ") = [].
Proof.
  split; [|split; [|split]].
  - etransitivity; [apply (proj1 (kw_list_clean (utf8 " a , b c ,,")))|].
    reflexivity.
  - apply (proj1 (proj2 (kw_list_clean (utf8 " a , b c ,,"))) (utf8 "b c")).
    vm_compute. right. left. reflexivity.
  - apply (proj1 (proj2 (proj2 (kw_list_clean (utf8 " a , b c ,,"))))
             (utf8 " b c ")).
    + vm_compute. right. left. reflexivity.
    + vm_compute. discriminate.
  - apply (proj2 (proj2 (proj2 (kw_list_clean (utf8 " , ,, "))))).
    repeat (constructor; [solve [left; reflexivity | right; reflexivity] |]).
    constructor.
Defined.

(** ** The completion client and the agents *)

Section Agents.

Variable provider : Provider.
Variable g : Settings.

Lemma agent_step (system user name : str) (temp : Q) (w : World) :
  bind (call_llm provider [system_msg system; user_msg user]
                 (api_key g) (model g) temp (max_tokens g))
       (fun out => ret {| role := name; output := out |}) w
  = (answer name (provider (calls w) (stage_request g system user temp)),
     sent w (stage_request g system user temp)).
Proof.
  unfold bind, call_llm, ret, answer, sent, stage_request.
  destruct (provider _ _) as [status message | [|c cs]]; reflexivity.
Qed.

Lemma research_agent_step topic audience tone keywords w :
  let req := stage_request g research_system
               (research_user topic audience tone keywords) (4 # 10) in
  research_agent provider g topic audience tone keywords w
  = (answer (utf8 "Research Agent") (provider (calls w) req), sent w req).
Proof. apply agent_step. Qed.

Lemma outline_agent_step topic audience tone keywords research word_target w :
  let req := stage_request g outline_system
               (outline_user topic audience tone keywords research word_target)
               (5 # 10) in
  outline_agent provider g topic audience tone keywords research word_target w
  = (answer (utf8 "Outline Agent") (provider (calls w) req), sent w req).
Proof. apply agent_step. Qed.

Lemma writing_agent_step topic audience tone outline research w :
  let req := stage_request g writing_system
               (writing_user topic audience tone outline research) (8 # 10) in
  writing_agent provider g topic audience tone outline research w
  = (answer (utf8 "Writing Agent") (provider (calls w) req), sent w req).
Proof. apply agent_step. Qed.

Lemma editing_agent_step draft_md audience tone w :
  let req := stage_request g editing_system
               (editing_user draft_md audience tone) (3 # 10) in
  editing_agent provider g draft_md audience tone w
  = (answer (utf8 "Editing Agent") (provider (calls w) req), sent w req).
Proof. apply agent_step. Qed.

Lemma seo_agent_step topic audience keywords draft_md w :
  let req := stage_request g seo_system
               (seo_user topic audience keywords draft_md) (5 # 10) in
  seo_agent provider g topic audience keywords draft_md w
  = (answer (utf8 "SEO Agent") (provider (calls w) req), sent w req).
Proof. apply agent_step. Qed.

Lemma finalizer_agent_step draft_md seo w :
  let req := stage_request g finalizer_system
               (finalizer_user draft_md seo) (2 # 10) in
  finalizer_agent provider g draft_md seo w
  = (answer (utf8 "Finalizer") (provider (calls w) req), sent w req).
Proof. apply agent_step. Qed.

Lemma stage_request_sends (system user : str) (temp : Q) (agent : M AgentResult) :
  (forall w, snd (agent w) = sent w (stage_request g system user temp)) ->
  sends_with g temp agent.
Proof.
  intros H w. exists (stage_request g system user temp).
  rewrite H. repeat split.
Qed.

(** C7.  Each stage calls the completion client with its own fixed
    temperature (Research 0.4, Outline 0.5, Draft 0.8, Edit 0.3, SEO 0.5),
    whatever the sidebar temperature is, and with the shared model, token
    limit and credential. *)
Theorem stage_temperatures topic audience tone keywords research outline draft
    word_target :
  sends_with g (4 # 10) (research_agent provider g topic audience tone keywords) /\
  sends_with g (5 # 10)
    (outline_agent provider g topic audience tone keywords research word_target) /\
  sends_with g (8 # 10) (writing_agent provider g topic audience tone outline research) /\
  sends_with g (3 # 10) (editing_agent provider g draft audience tone) /\
  sends_with g (5 # 10) (seo_agent provider g topic audience keywords draft).
Proof.
  repeat split; eapply stage_request_sends; intros w.
  - now rewrite research_agent_step.
  - now rewrite outline_agent_step.
  - now rewrite writing_agent_step.
  - now rewrite editing_agent_step.
  - now rewrite seo_agent_step.
Qed.

(** C4.  The user prompt the Outline stage sends contains the topic, the
    audience and the Research stage's output text, each verbatim. *)
Theorem outline_prompt_carries_inputs topic audience tone keywords research
    word_target w :
  exists user,
    snd (outline_agent provider g topic audience tone keywords (Some research)
           word_target w)
    = sent w (stage_request g outline_system user (5 # 10)) /\
    contains topic user /\ contains audience user /\ contains research user.
Proof.
  eexists. rewrite outline_agent_step. split; [reflexivity|].
  unfold outline_user. repeat split; find_part.
Qed.

(** The completion client hands back the first choice's content as the
    provider gave it, and lets the provider's error through unchanged. *)
Lemma call_llm_step messages key mdl temp limit w :
  let req := {| req_api_key := if truthy key then Some key else None;
                req_model := mdl; req_messages := messages;
                req_temperature := temp; req_max_tokens := limit |} in
  call_llm provider messages key mdl temp limit w
  = (match provider (calls w) req with
     | Raises status message => Raise (ProviderError status message)
     | Returns [] => Raise IndexError
     | Returns (c :: _) => Ok c
     end, sent w req).
Proof.
  unfold call_llm, sent. simpl.
  destruct (provider _ _) as [status message | [|c cs]]; reflexivity.
Qed.

(** C6, as the code has it.  When the call cannot be completed the completion
    client fails with the provider's error, status and message unchanged; when
    the provider answers, the client returns the first choice's content as it
    is, with no check that it holds any text. *)
Theorem call_llm_passes_through messages key mdl temp limit w :
  let req := {| req_api_key := if truthy key then Some key else None;
                req_model := mdl; req_messages := messages;
                req_temperature := temp; req_max_tokens := limit |} in
  (forall status message,
      provider (calls w) req = Raises status message ->
      call_llm provider messages key mdl temp limit w
      = (Raise (ProviderError status message), sent w req)) /\
  (forall c cs,
      provider (calls w) req = Returns (c :: cs) ->
      call_llm provider messages key mdl temp limit w = (Ok c, sent w req)).
Proof.
  intros req. split; intros * H; rewrite call_llm_step; fold req; now rewrite H.
Qed.

(** C8.  Against a deterministic provider, running the Finalizer twice on
    the same edited draft and SEO pack gives the same result both times. *)
Theorem finalizer_repeatable draft_md seo w :
  deterministic provider ->
  let first := finalizer_agent provider g draft_md seo w in
  let second := finalizer_agent provider g draft_md seo (snd first) in
  fst first = fst second.
Proof.
  intros Hdet. simpl. rewrite !finalizer_agent_step. simpl.
  f_equal. apply Hdet.
Qed.

End Agents.

(** ** Prompts: what they carry and what they leave out *)

Lemma seo_user_ignores_inputs topic1 audience1 keywords1 topic2 audience2 keywords2
    draft_md :
  seo_user topic1 audience1 keywords1 draft_md
  = seo_user topic2 audience2 keywords2 draft_md.
Proof. reflexivity. Qed.

Lemma editing_user_ignores_audience draft_md audience1 audience2 tone :
  editing_user draft_md audience1 tone = editing_user draft_md audience2 tone.
Proof. reflexivity. Qed.

Lemma research_prompt_marks_empty_keywords topic audience tone :
  contains empty_keywords_field (research_user topic audience tone []).
Proof.
  unfold research_user, keywords_field. find_pair.
Qed.

Lemma outline_prompt_marks_empty_keywords topic audience tone research word_target :
  contains empty_keywords_field
    (outline_user topic audience tone [] research word_target).
Proof.
  unfold outline_user, keywords_field. find_pair.
Qed.

(** C5.  With an empty keyword list the Research and Outline prompts carry
    the field [Target keywords: N/A]; the SEO prompt, built by an agent that
    also receives the keyword list, carries neither the field nor the
    marker. *)
Theorem seo_prompt_omits_keywords :
  contains empty_keywords_field
    (research_user (topic example_form) (audience example_form)
       (tone example_form) []) /\
  contains empty_keywords_field
    (outline_user (topic example_form) (audience example_form)
       (tone example_form) [] example_draft (word_target example_form)) /\
  ~ contains keywords_label
      (seo_user (topic example_form) (audience example_form) [] example_draft) /\
  ~ contains no_keywords_marker
      (seo_user (topic example_form) (audience example_form) [] example_draft).
Proof.
  split; [apply research_prompt_marks_empty_keywords|].
  split; [apply outline_prompt_marks_empty_keywords|].
  split; apply not_contains; vm_compute; reflexivity.
Qed.

(** C9.  The conversation the Edit stage sends is built from the draft and
    the tone only: for the audience "HR managers" neither of its two
    messages contains the audience. *)
Theorem editing_prompt_omits_audience (provider : Provider) (g : Settings) (w : World) :
  exists system user,
    snd (editing_agent provider g example_draft (audience example_form)
           (tone example_form) w)
    = sent w (stage_request g system user (3 # 10)) /\
    ~ contains (audience example_form) system /\
    ~ contains (audience example_form) user.
Proof.
  eexists _, _. rewrite editing_agent_step. split; [reflexivity|].
  split; apply not_contains; vm_compute; reflexivity.
Qed.

(** ** The completion client on an answer without text *)

(** C6 as the specification states it fails: when the provider answers
    with empty text, the completion client returns that empty text as its
    value. *)
Lemma call_llm_returns_empty_text :
  ~ (forall (provider : Provider) messages key mdl temp limit w v,
        fst (call_llm provider messages key mdl temp limit w) = Ok v ->
        exists s, v = Some s /\ s <> []).
Proof.
  intros H.
  destruct (H empty_text_stub [] [] [] (0 # 1) 0%Z empty_world (Some []) eq_refl)
    as (s & E & Hs).
  injection E as <-. now apply Hs.
Qed.

(** The same for a content that is [None]. *)
Example call_llm_returns_none :
  fst (call_llm no_text_stub [] [] [] (0 # 1) 0%Z empty_world) = Ok None.
Proof. reflexivity. Qed.

(** ** The orchestration block *)

Lemma truthy_nonempty (s : str) : s <> [] -> truthy s = true.
Proof. destruct s; [congruence | reflexivity]. Qed.

(** Runs the script up to its next provider call. *)
Ltac run_script :=
  cbv [when bind show st_stop raise ret negb orb assign calls page vars sent
       empty_world app answer fst snd output encode_output].

(** Takes the provider's answer to the pending call from [lookup]. *)
Ltac provider_answers lookup :=
  match goal with
  | |- context [?p ?h ?q] =>
    match type of p with Provider => lookup h q end
  end.

Section Orchestration.

Variable provider : Provider.
Variable lower : str -> str.
Variable g : Settings.
Variable i : Form.

(** C2.  A run request with an empty credential, topic or audience shows an
    error and stops: nothing is sent to the provider. *)
Theorem validation_halts (w : World) :
  run_button i = true ->
  api_key g = [] \/ topic i = [] \/ audience i = [] ->
  exists message w',
    orchestrate provider lower g i w = (Raise StopException, w') /\
    calls w' = calls w /\
    page w' = page w ++ [Error message] /\
    vars w' = vars w.
Proof.
  intros Hrun Hbad. unfold orchestrate. rewrite Hrun.
  destruct (truthy (api_key g)) eqn:Hkey.
  - assert (Hform : negb (truthy (topic i)) || negb (truthy (audience i)) = true).
    { destruct Hbad as [E | [E | E]]; rewrite E in *;
        [discriminate | reflexivity | apply orb_true_r]. }
    rewrite Hform. run_script. eexists _, _. split; [reflexivity|].
    repeat split.
  - run_script. eexists _, _. split; [reflexivity|]. repeat split.
Qed.

(** C1.  With a non-empty credential, topic and audience and a provider
    stub that answers every call with a non-empty text, the run succeeds
    after exactly six calls: the five stage results are produced in the
    order Research, Outline, Draft, Edit, SEO, each from the outputs before
    it, and the Finalizer's answer is the one final document, shown and
    offered for download. *)
Theorem full_run_succeeds :
  run_button i = true ->
  api_key g <> [] -> topic i <> [] -> audience i <> [] ->
  returns_text provider ->
  exists w r o d e s f data,
    orchestrate provider lower g i empty_world = (Ok tt, w) /\
    vars w = stage_bindings [Some r; Some o; Some d; Some e; Some s]
             ++ [("f"%string, {| role := utf8 "Finalizer"; output := Some f |})] /\
    calls w = [research_request g i;
               outline_request g i (Some r);
               writing_request g i (Some o) (Some r);
               editing_request g i (Some d);
               seo_request g i (Some e);
               finalizer_request g (Some e) (Some s)] /\
    page w = stage_pages g [Some r; Some o; Some d; Some e; Some s]
             ++ final_page (file_name_of lower (topic i)) f data /\
    f <> [] /\ encode f = Some data.
Proof.
  intros Hrun Hkey Htopic Haud Hstub.
  unfold orchestrate. rewrite Hrun.
  rewrite (truthy_nonempty _ Hkey), (truthy_nonempty _ Htopic),
    (truthy_nonempty _ Haud).
  destruct (show_steps g) eqn:Hshow.
  all: run_script; rewrite research_agent_step; run_script.
  all: provider_answers ltac:(fun h q => destruct (Hstub h q) as (r & ? & -> & _ & _)).
  all: run_script; rewrite outline_agent_step; run_script.
  all: provider_answers ltac:(fun h q => destruct (Hstub h q) as (o & ? & -> & _ & _)).
  all: run_script; rewrite writing_agent_step; run_script.
  all: provider_answers ltac:(fun h q => destruct (Hstub h q) as (d & ? & -> & _ & _)).
  all: run_script; rewrite editing_agent_step; run_script.
  all: provider_answers ltac:(fun h q => destruct (Hstub h q) as (e & ? & -> & _ & _)).
  all: run_script; rewrite seo_agent_step; run_script.
  all: provider_answers ltac:(fun h q => destruct (Hstub h q) as (s & ? & -> & _ & _)).
  all: run_script; rewrite finalizer_agent_step; run_script.
  all: provider_answers ltac:(fun h q => destruct (Hstub h q) as (f & ? & -> & Hf & Henc)).
  all: run_script; destruct (encode f) as [data|] eqn:E; [|congruence].
  all: eexists _, r, o, d, e, s, f, data; (split; [reflexivity|]).
  all: unfold stage_pages, stage_block; rewrite Hshow.
  all: cbv [stage_displays List.concat map combine fst snd app final_page].
  all: split; [reflexivity|].
  all: split; [reflexivity|].
  all: split; [reflexivity|].
  all: split; assumption.
Qed.

(** C3.  When the provider fails on the third call only, the run ends with
    the error the provider raised for the Draft stage's request; the Research
    and Outline results, and no other, are bound (and are on the page when
    intermediate outputs are shown); three requests were sent, so the Edit
    stage, the SEO stage and the Finalizer were never called. *)
Theorem draft_failure_keeps_prior_results :
  run_button i = true ->
  api_key g <> [] -> topic i <> [] -> audience i <> [] ->
  fails_on_third_only provider ->
  exists w r o status message,
    orchestrate provider lower g i empty_world
    = (Raise (ProviderError status message), w) /\
    provider [research_request g i; outline_request g i r]
             (writing_request g i o r) = Raises status message /\
    calls w = [research_request g i; outline_request g i r;
               writing_request g i o r] /\
    vars w = stage_bindings [r; o] /\
    page w = stage_pages g [r; o] ++ [Spinner (utf8 "Drafting content...")].
Proof.
  intros Hrun Hkey Htopic Haud (Hfail & Hrest).
  unfold orchestrate. rewrite Hrun.
  rewrite (truthy_nonempty _ Hkey), (truthy_nonempty _ Htopic),
    (truthy_nonempty _ Haud).
  destruct (show_steps g) eqn:Hshow.
  all: run_script; rewrite research_agent_step; run_script.
  all: provider_answers ltac:(fun h q =>
         destruct (Hrest h q) as (r & ? & ->); [discriminate|]).
  all: run_script; rewrite outline_agent_step; run_script.
  all: provider_answers ltac:(fun h q =>
         destruct (Hrest h q) as (o & ? & ->); [discriminate|]).
  all: run_script; rewrite writing_agent_step; run_script.
  all: provider_answers ltac:(fun h q =>
         destruct (Hfail h q eq_refl) as (status & message & E); rewrite E).
  all: eexists _, r, o, status, message; (split; [reflexivity|]).
  all: unfold stage_pages, stage_block; rewrite Hshow.
  all: cbv [stage_displays List.concat map combine fst snd app].
  all: split; [exact E|].
  all: split; [reflexivity|].
  all: split; reflexivity.
Qed.

End Orchestration.

(** ** The properties at the example values *)

Example example_run :
  fst (orchestrate fixed_stub ascii_lower example_settings example_form empty_world)
  = Ok tt /\
  List.length (calls (snd (orchestrate fixed_stub ascii_lower example_settings
                             example_form empty_world))) = 6%nat.
Proof. split; vm_compute; reflexivity. Qed.

Example example_file_name :
  file_name_of ascii_lower (utf8 " Remote Work ") = utf8 "remote_work.md".
Proof. vm_compute. reflexivity. Qed.

Lemma fixed_stub_returns_text : returns_text fixed_stub.
Proof.
  intros h req. exists (utf8 "# Post"), [].
  repeat split; vm_compute; discriminate.
Defined.

Lemma third_call_fails_on_third_only : fails_on_third_only third_call_fails.
Proof.
  split; intros h req H; unfold third_call_fails.
  - rewrite H. simpl. eauto.
  - apply Nat.eqb_neq in H. rewrite H. eauto.
Defined.

Lemma full_run_succeeds_witness :
  exists w r o d e s f data,
    orchestrate fixed_stub ascii_lower example_settings example_form empty_world
    = (Ok tt, w) /\
    vars w = stage_bindings [Some r; Some o; Some d; Some e; Some s]
             ++ [("f"%string, {| role := utf8 "Finalizer"; output := Some f |})] /\
    calls w = [research_request example_settings example_form;
               outline_request example_settings example_form (Some r);
               writing_request example_settings example_form (Some o) (Some r);
               editing_request example_settings example_form (Some d);
               seo_request example_settings example_form (Some e);
               finalizer_request example_settings (Some e) (Some s)] /\
    page w = stage_pages example_settings [Some r; Some o; Some d; Some e; Some s]
             ++ final_page (file_name_of ascii_lower (topic example_form)) f data /\
    f <> [] /\ encode f = Some data.
Proof.
  apply (full_run_succeeds fixed_stub ascii_lower example_settings example_form).
  - reflexivity.
  - vm_compute; discriminate.
  - vm_compute; discriminate.
  - vm_compute; discriminate.
  - exact fixed_stub_returns_text.
Defined.

Lemma validation_halts_witness :
  exists message w',
    orchestrate fixed_stub ascii_lower example_settings empty_topic_form empty_world
    = (Raise StopException, w') /\
    calls w' = calls empty_world /\
    page w' = page empty_world ++ [Error message] /\
    vars w' = vars empty_world.
Proof.
  apply (validation_halts fixed_stub ascii_lower example_settings empty_topic_form
           empty_world).
  - reflexivity.
  - right; left; reflexivity.
Defined.

Lemma draft_failure_keeps_prior_results_witness :
  exists w r o status message,
    orchestrate third_call_fails ascii_lower example_settings example_form empty_world
    = (Raise (ProviderError status message), w) /\
    third_call_fails
      [research_request example_settings example_form;
       outline_request example_settings example_form r]
      (writing_request example_settings example_form o r) = Raises status message /\
    calls w = [research_request example_settings example_form;
               outline_request example_settings example_form r;
               writing_request example_settings example_form o r] /\
    vars w = stage_bindings [r; o] /\
    page w = stage_pages example_settings [r; o]
             ++ [Spinner (utf8 "Drafting content...")].
Proof.
  apply (draft_failure_keeps_prior_results third_call_fails ascii_lower
           example_settings example_form).
  - reflexivity.
  - vm_compute; discriminate.
  - vm_compute; discriminate.
  - vm_compute; discriminate.
  - exact third_call_fails_on_third_only.
Defined.

Lemma call_llm_passes_through_witness :
  call_llm always_fails [] (utf8 "sk-test") (utf8 "gpt-4o-mini") (4 # 10) 1200
    empty_world
  = (Raise (ProviderError (Some 401%Z) (utf8 "invalid api key")),
     sent empty_world example_request) /\
  call_llm empty_text_stub [] (utf8 "sk-test") (utf8 "gpt-4o-mini") (4 # 10) 1200
    empty_world
  = (Ok (Some []), sent empty_world example_request).
Proof.
  split.
  - apply (proj1 (call_llm_passes_through always_fails [] (utf8 "sk-test")
                    (utf8 "gpt-4o-mini") (4 # 10) 1200 empty_world)
             (Some 401%Z) (utf8 "invalid api key")).
    reflexivity.
  - apply (proj2 (call_llm_passes_through empty_text_stub [] (utf8 "sk-test")
                    (utf8 "gpt-4o-mini") (4 # 10) 1200 empty_world)
             (Some []) []).
    reflexivity.
Defined.

Lemma fixed_stub_deterministic : deterministic fixed_stub.
Proof. intros h1 h2 req. reflexivity. Defined.

Lemma finalizer_repeatable_witness :
  fst (finalizer_agent fixed_stub example_settings example_draft example_draft
         empty_world)
  = fst (finalizer_agent fixed_stub example_settings example_draft example_draft
           (snd (finalizer_agent fixed_stub example_settings example_draft
                   example_draft empty_world))).
Proof.
  apply (finalizer_repeatable fixed_stub example_settings example_draft example_draft
           empty_world).
  exact fixed_stub_deterministic.
Defined.

(** ** More on strings: parts, [split], [strip] and [join] *)

Lemma contains_refl (x : str) : contains x x.
Proof. exists [], []. now rewrite app_nil_r. Qed.

Lemma contains_trans (a b c : str) :
  contains a b -> contains b c -> contains a c.
Proof.
  intros (p1 & q1 & ->) (p2 & q2 & ->).
  exists (p2 ++ p1), (q1 ++ q2). now rewrite <- !app_assoc.
Qed.

Lemma contains_In (x s : str) (c : char) : contains x s -> In c x -> In c s.
Proof.
  intros (pre & post & ->) H.
  apply in_or_app. right. apply in_or_app. now left.
Qed.

Lemma lstrip_suffix (s : str) : exists pre, s = pre ++ lstrip s.
Proof.
  induction s as [|c s (pre & IH)]; simpl.
  - now exists [].
  - destruct (is_space c).
    + exists (c :: pre). simpl. now f_equal.
    + now exists [].
Qed.

Lemma rstrip_prefix (s : str) : exists post, s = rstrip s ++ post.
Proof.
  unfold rstrip. destruct (lstrip_suffix (rev s)) as (pre & H).
  exists (rev pre). rewrite <- rev_app_distr, <- H. symmetry. apply rev_involutive.
Qed.

Lemma strip_part (s : str) : contains (strip s) s.
Proof.
  unfold strip.
  destruct (lstrip_suffix s) as (pre & Hl).
  destruct (rstrip_prefix (lstrip s)) as (post & Hr).
  exists pre, post. now rewrite <- Hr.
Qed.

Lemma lstrip_clean (s : str) : starts_with_space s = false -> lstrip s = s.
Proof.
  destruct s as [|c s]; simpl; [reflexivity|]. now intros ->.
Qed.

Lemma strip_clean (s : str) :
  starts_with_space s = false -> ends_with_space s = false -> strip s = s.
Proof.
  intros Hl Hr. unfold strip, rstrip. rewrite (lstrip_clean s Hl).
  rewrite (lstrip_clean (rev s) Hr). apply rev_involutive.
Qed.

Lemma strip_leading_space (c : char) (s : str) :
  is_space c = true -> strip (c :: s) = strip s.
Proof.
  intros H. unfold strip. simpl. now rewrite H.
Qed.

Lemma split_head_prefix (sep : char) (s p : str) (ps : list str) :
  split sep s = p :: ps -> exists post, s = p ++ post.
Proof.
  revert p ps. induction s as [|c s IH]; simpl; intros p ps H.
  - injection H as <- <-. now exists [].
  - destruct (c =? sep)%N.
    + injection H as <- <-. now exists (c :: s).
    + destruct (split sep s) as [|q qs] eqn:E.
      * injection H as <- <-. now exists s.
      * injection H as <- <-. destruct (IH q qs eq_refl) as (post & ->).
        now exists post.
Qed.

Lemma split_parts (sep : char) (s p : str) :
  In p (split sep s) -> contains p s.
Proof.
  revert p. induction s as [|c s IH]; simpl; intros p H.
  - destruct H as [<- | []]. apply contains_refl.
  - destruct (c =? sep)%N.
    + destruct H as [<- | H].
      * exists [], (c :: s). reflexivity.
      * apply (contains_app_r p [c] s), IH, H.
    + destruct (split sep s) as [|q qs] eqn:E.
      * destruct H as [<- | []]. apply (contains_here [c] s).
      * destruct H as [<- | H].
        -- destruct (split_head_prefix sep s q qs E) as (post & ->).
           apply (contains_here (c :: q) post).
        -- apply (contains_app_r p [c] s), IH. now right.
Qed.

Lemma split_no_sep (sep : char) (k : str) :
  ~ In sep k -> split sep k = [k].
Proof.
  induction k as [|c k IH]; simpl; intros H; [reflexivity|].
  destruct (N.eqb_spec c sep) as [->|_]; [exfalso; apply H; now left|].
  rewrite IH; [reflexivity|]. intros Hin. apply H. now right.
Qed.

Lemma split_app_sep (sep : char) (k rest : str) :
  ~ In sep k -> split sep (k ++ sep :: rest) = k :: split sep rest.
Proof.
  induction k as [|c k IH]; simpl; intros H.
  - now rewrite N.eqb_refl.
  - destruct (N.eqb_spec c sep) as [->|_]; [exfalso; apply H; now left|].
    rewrite IH; [reflexivity|]. intros Hin. apply H. now right.
Qed.

Lemma join_cons (sep x y : str) (xs : list str) :
  join sep (x :: y :: xs) = x ++ sep ++ join sep (y :: xs).
Proof. reflexivity. Qed.

Lemma join_contains (sep k : str) (ks : list str) :
  In k ks -> contains k (join sep ks).
Proof.
  induction ks as [|x ks IH]; intros H; [destruct H|].
  destruct ks as [|y ks].
  - destruct H as [<- | []]. apply contains_refl.
  - rewrite join_cons. destruct H as [<- | H].
    + apply contains_here.
    + apply contains_app_r, contains_app_r, IH, H.
Qed.

Lemma kw_list_blank (keywords : str) :
  Forall (fun c => c = comma \/ is_space c = true) keywords ->
  kw_list keywords = [].
Proof.
  intros H. unfold kw_list. destruct (truthy keywords); [|reflexivity].
  apply (split_pieces _ comma) in H.
  induction H as [|p ps Hp _ IH]; simpl; [reflexivity|].
  rewrite strip_spaces; [exact IH|].
  eapply Forall_impl; [|exact Hp].
  simpl. intros c ([Hc | Hc] & Hne); [contradiction | exact Hc].
Qed.

(** The pieces [split] cuts from the keywords joined with ", ". *)
Lemma split_joined_keywords (k : str) (ks : list str) :
  Forall clean_keyword (k :: ks) ->
  split comma (join (utf8 ", ") (k :: ks)) = k :: map (cons 32%N) ks.
Proof.
  revert k. induction ks as [|k' ks IH]; intros k H.
  - inversion H as [|? ? (_ & Hk & _) _]; subst. simpl. now apply split_no_sep.
  - inversion H as [|? ? (_ & Hk & _) H']; subst.
    rewrite join_cons.
    change (utf8 ", " ++ join (utf8 ", ") (k' :: ks))
      with (comma :: 32%N :: join (utf8 ", ") (k' :: ks)).
    rewrite (split_app_sep comma k _ Hk).
    change (split comma (32%N :: join (utf8 ", ") (k' :: ks)))
      with (match split comma (join (utf8 ", ") (k' :: ks)) with
            | [] => [[32%N]]
            | p :: ps => (32%N :: p) :: ps
            end).
    now rewrite (IH k' H').
Qed.

Lemma strip_spaced_keywords (ks : list str) :
  Forall clean_keyword ks ->
  map strip (filter (fun k => truthy (strip k)) (map (cons 32%N) ks)) = ks.
Proof.
  induction 1 as [|k ks (Hne & _ & Hl & Hr) _ IH]; [reflexivity|].
  cbn [map filter].
  rewrite strip_leading_space by reflexivity. rewrite (strip_clean k Hl Hr).
  destruct k as [|c k]; [congruence|]. cbn [truthy map].
  rewrite strip_leading_space by reflexivity. rewrite (strip_clean _ Hl Hr).
  now rewrite IH.
Qed.

(** Each keyword of the list is free of commas. *)
Theorem kw_list_no_comma (keywords k : str) :
  In k (kw_list keywords) -> ~ In comma k.
Proof.
  unfold kw_list. destruct (truthy keywords); [|intros []].
  intros Hk Hc. apply in_map_iff in Hk as (p & <- & Hp).
  apply filter_In in Hp as (Hp & _).
  assert (Hall : Forall (fun _ : char => True) keywords)
    by (apply Forall_forall; intros; exact I).
  pose proof (split_pieces (fun _ => True) comma keywords Hall) as Hs.
  rewrite Forall_forall in Hs. specialize (Hs p Hp).
  rewrite Forall_forall in Hs.
  apply (contains_In _ _ _ (strip_part p)) in Hc.
  now destruct (Hs comma Hc) as (_ & Hne).
Qed.

(** Each keyword of the list is a contiguous part of the raw input. *)
Theorem kw_list_parts_of_input (keywords k : str) :
  In k (kw_list keywords) -> contains k keywords.
Proof.
  unfold kw_list. destruct (truthy keywords); [|intros []].
  intros Hk. apply in_map_iff in Hk as (p & <- & Hp).
  apply filter_In in Hp as (Hp & _).
  eapply contains_trans; [apply strip_part | apply (split_parts comma), Hp].
Qed.

(** Keywords written out with ", " between them, as the prompts write them,
    are read back as the same list. *)
Theorem kw_list_join_round_trip (ks : list str) :
  Forall clean_keyword ks ->
  kw_list (join (utf8 ", ") ks) = ks.
Proof.
  intros H. destruct ks as [|k ks]; [reflexivity|].
  unfold kw_list.
  assert (Ht : truthy (join (utf8 ", ") (k :: ks)) = true).
  { inversion H as [|? ? (Hne & _) _]; subst.
    destruct k as [|c k]; [congruence|]. now destruct ks. }
  rewrite Ht, (split_joined_keywords k ks H).
  inversion H as [|? ? (Hne & _ & Hl & Hr) H']; subst.
  cbn [filter]. rewrite (strip_clean k Hl Hr).
  destruct k as [|c k]; [congruence|]. cbn [truthy map].
  now rewrite (strip_clean _ Hl Hr), (strip_spaced_keywords ks H').
Qed.

(** ** What each agent's request carries *)

Lemma contains_prefix (x post hay : str) : hay = x ++ post -> contains x hay.
Proof. intros ->. apply contains_here. Qed.

(** Looks for a needle that spans several consecutive parts. *)
Ltac find_run :=
  solve [ eapply contains_prefix; rewrite <- ?app_assoc; reflexivity
        | apply contains_app_r; find_run ].

Lemma keywords_field_carries (keywords : list str) :
  Forall (fun k => contains k (keywords_field keywords)) keywords.
Proof.
  apply Forall_forall. intros k Hk.
  destruct keywords as [|x xs]; [destruct Hk|].
  now apply join_contains.
Qed.

Lemma Forall_contains_trans (ks : list str) (a b : str) :
  contains a b ->
  Forall (fun k => contains k a) ks -> Forall (fun k => contains k b) ks.
Proof.
  intros Hab. apply Forall_impl. intros k Hk. eapply contains_trans; eassumption.
Qed.

Section Requests.

Variable provider : Provider.
Variable g : Settings.

(** The Research request carries the topic, the audience, the tone and the
    keyword field, in which every keyword stands. *)
Theorem research_prompt_carries_inputs topic audience tone keywords w :
  exists user,
    snd (research_agent provider g topic audience tone keywords w)
    = sent w (stage_request g research_system user (4 # 10)) /\
    contains topic user /\ contains audience user /\ contains tone user /\
    contains (utf8 "Target keywords: " ++ keywords_field keywords ++ nl) user /\
    Forall (fun k => contains k user) keywords.
Proof.
  eexists. rewrite research_agent_step. split; [reflexivity|].
  unfold research_user. repeat split; try find_part; try find_run.
  eapply Forall_contains_trans; [|apply keywords_field_carries]. find_part.
Qed.

(** The Outline request carries, besides topic, audience and research, the
    tone, the keyword field with every keyword, and the word target in
    decimal. *)
Theorem outline_prompt_carries_settings topic audience tone keywords research
    word_target w :
  exists user,
    snd (outline_agent provider g topic audience tone keywords research
           word_target w)
    = sent w (stage_request g outline_system user (5 # 10)) /\
    contains tone user /\
    contains (utf8 "Target keywords: " ++ keywords_field keywords ++ nl) user /\
    Forall (fun k => contains k user) keywords /\
    contains (utf8 "Word target: ~" ++ str_of_int word_target ++ utf8 " words.")
      user.
Proof.
  eexists. rewrite outline_agent_step. split; [reflexivity|].
  unfold outline_user. repeat split; try find_part; try find_run.
  eapply Forall_contains_trans; [|apply keywords_field_carries]. find_part.
Qed.

(** The Draft request carries the topic, the audience, the tone and the
    outline and research contents as an f-string prints them. *)
Theorem writing_prompt_carries_inputs topic audience tone outline research w :
  exists user,
    snd (writing_agent provider g topic audience tone outline research w)
    = sent w (stage_request g writing_system user (8 # 10)) /\
    contains topic user /\ contains audience user /\ contains tone user /\
    contains (fmt outline) user /\ contains (fmt research) user.
Proof.
  eexists. rewrite writing_agent_step. split; [reflexivity|].
  unfold writing_user. repeat split; find_part.
Qed.

(** The Edit request carries the draft and the tone. *)
Theorem editing_prompt_carries_draft draft_md audience tone w :
  exists user,
    snd (editing_agent provider g draft_md audience tone w)
    = sent w (stage_request g editing_system user (3 # 10)) /\
    contains (fmt draft_md) user /\ contains tone user.
Proof.
  eexists. rewrite editing_agent_step. split; [reflexivity|].
  unfold editing_user. repeat split; find_part.
Qed.

(** The SEO request carries the draft it is given. *)
Theorem seo_prompt_carries_draft topic audience keywords draft_md w :
  exists user,
    snd (seo_agent provider g topic audience keywords draft_md w)
    = sent w (stage_request g seo_system user (5 # 10)) /\
    contains (fmt draft_md) user.
Proof.
  eexists. rewrite seo_agent_step. split; [reflexivity|].
  unfold seo_user. find_part.
Qed.

(** The Finalizer request carries the edited draft and the SEO pack, each
    between its own pair of rules, and goes out at temperature 0.2 with the
    shared model, token limit and credential. *)
Theorem finalizer_prompt_carries_inputs draft_md seo w :
  exists user,
    snd (finalizer_agent provider g draft_md seo w)
    = sent w (stage_request g finalizer_system user (2 # 10)) /\
    contains (utf8 "Edited Draft:" ++ nl ++ utf8 "---" ++ nl ++ fmt draft_md ++ nl
              ++ utf8 "---" ++ nl) user /\
    contains (utf8 "SEO Pack:" ++ nl ++ utf8 "---" ++ nl ++ fmt seo ++ nl
              ++ utf8 "---" ++ nl) user /\
    sends_with g (2 # 10) (finalizer_agent provider g draft_md seo).
Proof.
  eexists. rewrite finalizer_agent_step. split; [reflexivity|].
  unfold finalizer_user. repeat split; try find_run.
  eapply stage_request_sends. intros w'. now rewrite finalizer_agent_step.
Qed.

End Requests.

(** An agent that is handed [None] for an upstream output writes the word
    "None" where the text belongs. *)
Theorem absent_upstream_output_prints_none topic audience tone keywords
    word_target :
  contains (utf8 "---" ++ nl ++ utf8 "None" ++ nl ++ utf8 "---")
    (outline_user topic audience tone keywords None word_target) /\
  contains (utf8 "---" ++ nl ++ utf8 "None" ++ nl ++ utf8 "---")
    (editing_user None audience tone) /\
  contains (utf8 "---" ++ nl ++ utf8 "None" ++ nl ++ utf8 "---")
    (seo_user topic audience keywords None) /\
  contains (utf8 "---" ++ nl ++ utf8 "None" ++ nl ++ utf8 "---")
    (finalizer_user None None).
Proof.
  unfold outline_user, editing_user, seo_user, finalizer_user, fmt.
  repeat split; find_run.
Qed.

(** A keywords box that is empty or holds only commas and whitespace puts the
    field [Target keywords: N/A] in the Research and Outline requests. *)
Theorem blank_keywords_are_marked (g : Settings) (i : Form) (r : option str) :
  Forall (fun c => c = comma \/ is_space c = true) (keywords i) ->
  exists research_prompt outline_prompt,
    req_messages (research_request g i)
    = [system_msg research_system; user_msg research_prompt] /\
    contains empty_keywords_field research_prompt /\
    req_messages (outline_request g i r)
    = [system_msg outline_system; user_msg outline_prompt] /\
    contains empty_keywords_field outline_prompt.
Proof.
  intros H. eexists _, _.
  unfold research_request, outline_request, stage_request. cbn [req_messages].
  rewrite (kw_list_blank _ H).
  split; [reflexivity|]. split; [apply research_prompt_marks_empty_keywords|].
  split; [reflexivity|]. apply outline_prompt_marks_empty_keywords.
Qed.

Lemma blank_keywords_are_marked_witness :
  exists research_prompt outline_prompt,
    req_messages (research_request example_settings blank_keywords_form)
    = [system_msg research_system; user_msg research_prompt] /\
    contains empty_keywords_field research_prompt /\
    req_messages (outline_request example_settings blank_keywords_form example_draft)
    = [system_msg outline_system; user_msg outline_prompt] /\
    contains empty_keywords_field outline_prompt.
Proof.
  apply (blank_keywords_are_marked example_settings blank_keywords_form example_draft).
  repeat (constructor; [solve [left; reflexivity | right; reflexivity] |]).
  constructor.
Defined.

(** ** The download: file name and bytes *)

(** The download's file name holds no space and ends in ".md", whatever the
    topic. *)
Theorem file_name_has_no_space (lower : str -> str) (topic : str) :
  ~ In 32%N (file_name_of lower topic) /\
  exists base, file_name_of lower topic = base ++ utf8 ".md".
Proof.
  unfold file_name_of, replace. split; [|eexists; reflexivity].
  intros H. apply in_app_or in H as [H | H].
  - apply in_map_iff in H as (c & Hc & _).
    destruct (N.eqb_spec c 32); [discriminate | congruence].
  - vm_compute in H. intuition discriminate.
Qed.

Lemma encode_char_none (c : char) :
  encode_char c = None <-> is_surrogate c = true.
Proof.
  unfold encode_char, is_surrogate.
  destruct (N.ltb_spec c 128); [split; [discriminate|]|].
  { rewrite andb_true_iff, !N.leb_le. lia. }
  destruct (N.ltb_spec c 2048); [split; [discriminate|]|].
  { rewrite andb_true_iff, !N.leb_le. lia. }
  destruct ((55296 <=? c)%N && (c <=? 57343)%N); [tauto|].
  destruct (c <? 65536)%N; split; discriminate.
Qed.

(** [encode] fails exactly on the strings that hold a surrogate code point. *)
Theorem encode_fails_on_surrogates (s : str) :
  encode s = None <-> Exists (fun c => is_surrogate c = true) s.
Proof.
  induction s as [|c s IH]; simpl.
  - split; [discriminate | intros H; inversion H].
  - rewrite Exists_cons, <- IH, <- encode_char_none.
    destruct (encode_char c), (encode s); split;
      try discriminate; try tauto; intros [H | H]; discriminate.
Qed.






Lemma bytes_to_string_app (a b : list N) :
  bytes_to_string (a ++ b) = append (bytes_to_string a) (bytes_to_string b).
Proof.
  induction a as [|x a IH]; simpl; [reflexivity | now rewrite IH].
Qed.



(** ** The orchestration block under any provider *)

(** Splits on the provider's answer to the pending call: an error, no
    choice, or a first choice. *)
Ltac provider_cases :=
  match goal with
  | |- context [?p ?h ?q] =>
    match type of p with
    | Provider => destruct (p h q) as [? ? | [| ? ?]] eqn:?
    end
  end.

Lemma stage_request_with_show_steps b g system user temp :
  stage_request (with_show_steps b g) system user temp
  = stage_request g system user temp.
Proof. reflexivity. Qed.

Section AnyProvider.

Variable provider : Provider.
Variable lower : str -> str.
Variable g : Settings.
Variable i : Form.

Lemma run_all_answered :
  run_button i = true ->
  api_key g <> [] -> topic i <> [] -> audience i <> [] ->
  answers_first 6 provider ->
  exists w r o d e s f,
    orchestrate provider lower g i empty_world = (final_outcome f, w) /\
    calls w = run_requests g i r o d e s /\
    (answered provider [] (research_request g i) r /\
     answered provider (firstn 1 (calls w)) (outline_request g i r) o /\
     answered provider (firstn 2 (calls w)) (writing_request g i o r) d /\
     answered provider (firstn 3 (calls w)) (editing_request g i d) e /\
     answered provider (firstn 4 (calls w)) (seo_request g i e) s /\
     answered provider (firstn 5 (calls w)) (finalizer_request g e s) f) /\
    vars w = stage_bindings [r; o; d; e; s]
             ++ [("f"%string, {| role := utf8 "Finalizer"; output := f |})] /\
    page w = stage_pages g [r; o; d; e; s]
             ++ [Spinner (utf8 "Finalizing...");
                 Success (utf8 "✅ Blog post generated!")]
             ++ final_elements (file_name_of lower (topic i)) f.
Proof.
  intros Hrun Hkey Htopic Haud Hans.
  unfold orchestrate. rewrite Hrun.
  rewrite (truthy_nonempty _ Hkey), (truthy_nonempty _ Htopic),
    (truthy_nonempty _ Haud).
  destruct (show_steps g) eqn:Hshow.
  all: run_script; rewrite research_agent_step; run_script.
  all: provider_answers ltac:(fun h q =>
         destruct (Hans h q) as (r & ? & Er); [cbn [List.length]; lia|]; rewrite Er).
  all: run_script; rewrite outline_agent_step; run_script.
  all: provider_answers ltac:(fun h q =>
         destruct (Hans h q) as (o & ? & Eo); [cbn [List.length]; lia|]; rewrite Eo).
  all: run_script; rewrite writing_agent_step; run_script.
  all: provider_answers ltac:(fun h q =>
         destruct (Hans h q) as (d & ? & Ed); [cbn [List.length]; lia|]; rewrite Ed).
  all: run_script; rewrite editing_agent_step; run_script.
  all: provider_answers ltac:(fun h q =>
         destruct (Hans h q) as (e & ? & Ee); [cbn [List.length]; lia|]; rewrite Ee).
  all: run_script; rewrite seo_agent_step; run_script.
  all: provider_answers ltac:(fun h q =>
         destruct (Hans h q) as (s & ? & Es); [cbn [List.length]; lia|]; rewrite Es).
  all: run_script; rewrite finalizer_agent_step; run_script.
  all: provider_answers ltac:(fun h q =>
         destruct (Hans h q) as (f & ? & Ef); [cbn [List.length]; lia|]; rewrite Ef).
  all: run_script.
  all: destruct f as [t|]; [destruct (encode t) as [data|] eqn:Henc|].
  all: match type of Ef with
       | _ = Returns (?c :: _) => eexists _, r, o, d, e, s, c
       end.
  all: unfold final_outcome, final_elements, stage_pages, stage_block.
  all: rewrite Hshow, ?Henc.
  all: split; [reflexivity|].
  all: cbv [calls page vars stage_displays List.concat map combine fst snd app
            run_requests firstn answered].
  all: split; [reflexivity|].
  all: split; [|split; reflexivity].
  all: repeat split; eexists.
  all: first [exact Er | exact Eo | exact Ed | exact Ee | exact Es | exact Ef].
Qed.

Lemma existsb_stage_pages (test : Element -> bool) (outs : list (option str)) :
  (forall text, test (Spinner text) = false) ->
  (forall label expanded body, test (Expander label expanded body) = false) ->
  existsb test (stage_pages g outs) = false.
Proof.
  intros Hs He. unfold stage_pages.
  induction (combine stage_displays outs) as [|p ps IH]; [reflexivity|].
  cbn [map List.concat]. rewrite existsb_app, IH. unfold stage_block.
  destruct (show_steps g); cbn [existsb]; now rewrite Hs, ?He.
Qed.

(** Whatever the contents of the answers are (text, empty text or none at
    all), a run whose six calls are answered sends six requests, each built
    from the contents that came back before it. *)
Theorem run_threads_outputs :
  run_button i = true ->
  api_key g <> [] -> topic i <> [] -> audience i <> [] ->
  answers_first 6 provider ->
  exists r o d e s,
    calls (snd (orchestrate provider lower g i empty_world))
    = run_requests g i r o d e s /\
    answered provider [] (research_request g i) r /\
    answered provider [research_request g i] (outline_request g i r) o /\
    answered provider [research_request g i; outline_request g i r]
      (writing_request g i o r) d /\
    answered provider
      [research_request g i; outline_request g i r; writing_request g i o r]
      (editing_request g i d) e /\
    answered provider
      [research_request g i; outline_request g i r; writing_request g i o r;
       editing_request g i d]
      (seo_request g i e) s.
Proof.
  intros Hrun Hkey Htopic Haud Hans.
  destruct (run_all_answered Hrun Hkey Htopic Haud Hans)
    as (w & r & o & d & e & s & f & Hw & Hc & Ha & _).
  exists r, o, d, e, s. rewrite Hw. cbn [snd]. split; [exact Hc|].
  rewrite Hc in Ha. cbv [firstn run_requests] in Ha. tauto.
Qed.

(** Once the Finalizer has answered, the success notice is on the page and
    the content [f] of the answer decides the rest: without content the run
    raises [AttributeError], with content UTF-8 cannot encode it raises
    [UnicodeEncodeError], and only otherwise does it end normally with the
    download button on the page. *)
Theorem final_step_outcome :
  run_button i = true ->
  api_key g <> [] -> topic i <> [] -> audience i <> [] ->
  answers_first 6 provider ->
  exists w f,
    orchestrate provider lower g i empty_world = (final_outcome f, w) /\
    answered provider (firstn 5 (calls w)) (last (calls w) (research_request g i)) f /\
    List.length (calls w) = 6%nat /\
    existsb is_success (page w) = true /\
    existsb is_download (page w)
    = match final_outcome f with Ok _ => true | Raise _ => false end.
Proof.
  intros Hrun Hkey Htopic Haud Hans.
  destruct (run_all_answered Hrun Hkey Htopic Haud Hans)
    as (w & r & o & d & e & s & f & Hw & Hc & Ha & _ & Hp).
  exists w, f. split; [exact Hw|].
  split; [rewrite Hc at 2; cbv [last run_requests]; tauto|].
  split; [now rewrite Hc|].
  rewrite Hp, !existsb_app, !existsb_stage_pages by reflexivity.
  unfold final_outcome, final_elements.
  destruct f as [t|]; [destruct (encode t)|]; split; reflexivity.
Qed.

Ltac answered_stage Hans :=
  provider_answers ltac:(fun h q =>
    destruct (Hans h q) as (? & ? & ->); [cbn [List.length]; lia|]).

Ltac failing_stage Hfail :=
  provider_answers ltac:(fun h q =>
    let Hf := fresh "Hf" in
    let E := fresh "E" in
    pose proof (Hfail h q eq_refl) as Hf;
    destruct (provider h q) as [? ? | [| ? ?]] eqn:E;
    [ | | cbn [failure_of] in Hf; congruence ];
    run_script;
    (eexists _, _, h, q);
    (split; [reflexivity|]); (split; [reflexivity|]); (split; [reflexivity|]);
    (split; [rewrite E; reflexivity|]); split; reflexivity).

Ltac next_stage step Hans Hfail :=
  run_script; rewrite step; run_script;
  first [answered_stage Hans | failing_stage Hfail].

(** The first call the provider fails ends the run, at any of the six
    calls and for both kinds of failure (an error of the provider, or an
    answer without choices): the exception of that call is the outcome, no
    request follows it, the results before it are bound, and the success
    notice is not shown. *)
Theorem run_stops_at_first_failure (n : nat) :
  run_button i = true ->
  api_key g <> [] -> topic i <> [] -> audience i <> [] ->
  (n < 6)%nat -> answers_first n provider -> fails_after n provider ->
  exists w e h req,
    orchestrate provider lower g i empty_world = (Raise e, w) /\
    calls w = h ++ [req] /\
    List.length h = n /\
    failure_of (provider h req) = Some e /\
    map fst (vars w) = firstn n run_vars /\
    existsb is_success (page w) = false.
Proof.
  intros Hrun Hkey Htopic Haud Hn Hans Hfail.
  unfold orchestrate. rewrite Hrun.
  rewrite (truthy_nonempty _ Hkey), (truthy_nonempty _ Htopic),
    (truthy_nonempty _ Haud).
  destruct n as [|[|[|[|[|[|n]]]]]]; [ | | | | | | lia].
  all: destruct (show_steps g) eqn:Hshow.
  all: next_stage research_agent_step Hans Hfail.
  all: next_stage outline_agent_step Hans Hfail.
  all: next_stage writing_agent_step Hans Hfail.
  all: next_stage editing_agent_step Hans Hfail.
  all: next_stage seo_agent_step Hans Hfail.
  all: next_stage finalizer_agent_step Hans Hfail.
Qed.

End AnyProvider.

Section EveryRun.

Variable provider : Provider.
Variable lower : str -> str.
Variable g : Settings.
Variable i : Form.

(** Splits on the Finalizer's content and on its encoding. *)
Ltac end_of_run :=
  try match goal with
      | |- context [match ?c with Some _ => _ | None => _ end] =>
        is_var c; destruct c
      end;
  run_script;
  try match goal with
      | |- context [encode ?t] => destruct (encode t)
      end;
  run_script.

(** Closes a branch of a run that has ended, for the bound on the calls. *)
Ltac finish_bound :=
  cbv [snd calls]; split;
  [ cbn [List.length]; lia
  | split; [ intros H; discriminate H
           | intros [H | [H | [H | H]]]; discriminate H ] ].

Ltac bounded_stage step :=
  run_script; rewrite step; run_script; provider_cases; run_script;
  try finish_bound.

(** Whatever the provider does, a run sends at most six requests, and it
    sends none exactly when the button was not pressed or the credential,
    the topic or the audience is empty. *)
Theorem calls_bounded :
  let w := snd (orchestrate provider lower g i empty_world) in
  (List.length (calls w) <= 6)%nat /\
  (calls w = [] <->
   run_button i = false \/ api_key g = [] \/ topic i = [] \/ audience i = []).
Proof.
  cbv zeta. unfold orchestrate. cbv [truthy].
  destruct (run_button i) eqn:Hrun;
    [|run_script; split; [cbn [List.length]; lia | split; auto]].
  destruct (api_key g) as [|k ks] eqn:Hkey;
    [run_script; split; [cbn [List.length]; lia | split; auto]|].
  destruct (topic i) as [|t ts] eqn:Htopic;
    [run_script; split; [cbn [List.length]; lia | split; auto]|].
  destruct (audience i) as [|a aa] eqn:Haud;
    [run_script; split; [cbn [List.length]; lia | split; auto]|].
  destruct (show_steps g) eqn:Hshow.
  all: bounded_stage research_agent_step.
  all: bounded_stage outline_agent_step.
  all: bounded_stage writing_agent_step.
  all: bounded_stage editing_agent_step.
  all: bounded_stage seo_agent_step.
  all: bounded_stage finalizer_agent_step.
  all: end_of_run.
  all: finish_bound.
Qed.

(** The "show intermediate outputs" box changes the page and nothing else:
    the outcome of the run, the requests sent and the results bound are the
    same whether it is ticked or not. *)
Theorem show_steps_only_changes_page (b : bool) :
  let shown := orchestrate provider lower (with_show_steps b g) i empty_world in
  let plain := orchestrate provider lower g i empty_world in
  fst shown = fst plain /\
  calls (snd shown) = calls (snd plain) /\
  vars (snd shown) = vars (snd plain).
Proof.
  cbv zeta. unfold orchestrate.
  change (api_key (with_show_steps b g)) with (api_key g).
  change (show_steps (with_show_steps b g)) with b.
  destruct (run_button i); [|repeat split].
  destruct (truthy (api_key g)); [|repeat split].
  destruct (truthy (topic i)); [|repeat split].
  destruct (truthy (audience i)); [|repeat split].
  destruct (show_steps g), b.
  all: run_script; rewrite ?research_agent_step;
       rewrite ?stage_request_with_show_steps; run_script;
       provider_cases; run_script; try (repeat split; reflexivity).
  all: run_script; rewrite ?outline_agent_step;
       rewrite ?stage_request_with_show_steps; run_script;
       provider_cases; run_script; try (repeat split; reflexivity).
  all: run_script; rewrite ?writing_agent_step;
       rewrite ?stage_request_with_show_steps; run_script;
       provider_cases; run_script; try (repeat split; reflexivity).
  all: run_script; rewrite ?editing_agent_step;
       rewrite ?stage_request_with_show_steps; run_script;
       provider_cases; run_script; try (repeat split; reflexivity).
  all: run_script; rewrite ?seo_agent_step;
       rewrite ?stage_request_with_show_steps; run_script;
       provider_cases; run_script; try (repeat split; reflexivity).
  all: run_script; rewrite ?finalizer_agent_step;
       rewrite ?stage_request_with_show_steps; run_script;
       provider_cases; run_script; try (repeat split; reflexivity).
  all: end_of_run.
  all: repeat split; reflexivity.
Qed.

(** The sidebar's temperature has no effect on a run. *)
Theorem temperature_is_unused (t : Q) :
  orchestrate provider lower (with_temperature t g) i
  = orchestrate provider lower g i.
Proof. reflexivity. Qed.

(** The two guards of a run, in their order: without a credential the page
    asks for the API key, whatever the topic and audience are; with one, an
    empty topic or audience makes the page ask for both. *)
Theorem validation_messages (w : World) :
  run_button i = true ->
  (api_key g = [] ->
   orchestrate provider lower g i w
   = (Raise StopException,
      {| calls := calls w;
         page := page w
                 ++ [Error (utf8 "Please provide an OpenAI API key in the sidebar.")];
         vars := vars w |})) /\
  (api_key g <> [] -> topic i = [] \/ audience i = [] ->
   orchestrate provider lower g i w
   = (Raise StopException,
      {| calls := calls w;
         page := page w ++ [Error (utf8 "Please fill in both Topic and Audience.")];
         vars := vars w |})).
Proof.
  intros Hrun. unfold orchestrate. rewrite Hrun. split.
  - intros ->. reflexivity.
  - intros Hkey Hbad. rewrite (truthy_nonempty _ Hkey).
    assert (Hform : negb (truthy (topic i)) || negb (truthy (audience i)) = true).
    { destruct Hbad as [E | E]; rewrite E; [reflexivity | apply orb_true_r]. }
    rewrite Hform. reflexivity.
Qed.

End EveryRun.

(** ** The further properties at example values *)

Lemma kw_list_no_comma_witness :
  In (utf8 "b c") (kw_list (utf8 " a , b c ,,")) /\ ~ In comma (utf8 "b c").
Proof.
  assert (H : In (utf8 "b c") (kw_list (utf8 " a , b c ,,")))
    by (vm_compute; right; left; reflexivity).
  split; [exact H|].
  exact (kw_list_no_comma (utf8 " a , b c ,,") (utf8 "b c") H).
Defined.

Lemma kw_list_parts_of_input_witness :
  In (utf8 "b c") (kw_list (utf8 " a , b c ,,")) /\
  contains (utf8 "b c") (utf8 " a , b c ,,").
Proof.
  assert (H : In (utf8 "b c") (kw_list (utf8 " a , b c ,,")))
    by (vm_compute; right; left; reflexivity).
  split; [exact H|].
  exact (kw_list_parts_of_input (utf8 " a , b c ,,") (utf8 "b c") H).
Defined.

Lemma example_keywords_clean :
  Forall clean_keyword [utf8 "remote work"; utf8 "productivity"].
Proof.
  repeat constructor; try (vm_compute; discriminate);
    vm_compute; intuition discriminate.
Defined.

Lemma kw_list_join_round_trip_witness :
  kw_list (join (utf8 ", ") [utf8 "remote work"; utf8 "productivity"])
  = [utf8 "remote work"; utf8 "productivity"].
Proof.
  apply (kw_list_join_round_trip [utf8 "remote work"; utf8 "productivity"]).
  exact example_keywords_clean.
Defined.

Lemma encode_fails_on_surrogates_witness :
  encode [97%N; 55296%N] = None.
Proof.
  apply (proj2 (encode_fails_on_surrogates [97%N; 55296%N])).
  right. left. reflexivity.
Defined.


Lemma no_text_stub_answers (n : nat) : answers_first n no_text_stub.
Proof. intros h req _. now exists None, []. Defined.

Lemma sixth_is_none_answers : answers_first 6 sixth_is_none.
Proof.
  intros h req _. unfold sixth_is_none.
  destruct (Nat.eqb (List.length h) 5); eauto.
Defined.

Lemma run_threads_outputs_witness :
  exists r o d e s,
    calls (snd (orchestrate no_text_stub ascii_lower example_settings example_form
                  empty_world))
    = run_requests example_settings example_form r o d e s /\
    answered no_text_stub [] (research_request example_settings example_form) r /\
    answered no_text_stub [research_request example_settings example_form]
      (outline_request example_settings example_form r) o /\
    answered no_text_stub
      [research_request example_settings example_form;
       outline_request example_settings example_form r]
      (writing_request example_settings example_form o r) d /\
    answered no_text_stub
      [research_request example_settings example_form;
       outline_request example_settings example_form r;
       writing_request example_settings example_form o r]
      (editing_request example_settings example_form d) e /\
    answered no_text_stub
      [research_request example_settings example_form;
       outline_request example_settings example_form r;
       writing_request example_settings example_form o r;
       editing_request example_settings example_form d]
      (seo_request example_settings example_form e) s.
Proof.
  apply (run_threads_outputs no_text_stub ascii_lower example_settings example_form).
  - reflexivity.
  - vm_compute; discriminate.
  - vm_compute; discriminate.
  - vm_compute; discriminate.
  - exact (no_text_stub_answers 6).
Defined.

Lemma final_step_outcome_witness :
  exists w f,
    orchestrate sixth_is_none ascii_lower example_settings example_form empty_world
    = (final_outcome f, w) /\
    answered sixth_is_none (firstn 5 (calls w))
      (last (calls w) (research_request example_settings example_form)) f /\
    List.length (calls w) = 6%nat /\
    existsb is_success (page w) = true /\
    existsb is_download (page w)
    = match final_outcome f with Ok _ => true | Raise _ => false end.
Proof.
  apply (final_step_outcome sixth_is_none ascii_lower example_settings example_form).
  - reflexivity.
  - vm_compute; discriminate.
  - vm_compute; discriminate.
  - vm_compute; discriminate.
  - exact sixth_is_none_answers.
Defined.

Example absent_final_output :
  fst (orchestrate sixth_is_none ascii_lower example_settings example_form
         empty_world)
  = Raise AttributeError.
Proof. vm_compute. reflexivity. Qed.

Lemma no_choice_at_answers (n : nat) : answers_first n (no_choice_at n).
Proof.
  intros h req H. unfold no_choice_at.
  apply Nat.ltb_lt in H. rewrite H. eauto.
Defined.

Lemma no_choice_at_fails (n : nat) : fails_after n (no_choice_at n).
Proof.
  intros h req H. unfold no_choice_at. rewrite H, Nat.ltb_irrefl.
  discriminate.
Defined.

Lemma run_stops_at_first_failure_witness :
  exists w e h req,
    orchestrate (no_choice_at 4) ascii_lower example_settings example_form
      empty_world
    = (Raise e, w) /\
    calls w = h ++ [req] /\
    List.length h = 4%nat /\
    failure_of (no_choice_at 4 h req) = Some e /\
    map fst (vars w) = firstn 4 run_vars /\
    existsb is_success (page w) = false.
Proof.
  apply (run_stops_at_first_failure (no_choice_at 4) ascii_lower example_settings
           example_form 4).
  - reflexivity.
  - vm_compute; discriminate.
  - vm_compute; discriminate.
  - vm_compute; discriminate.
  - lia.
  - exact (no_choice_at_answers 4).
  - exact (no_choice_at_fails 4).
Defined.

Example fifth_call_without_choices :
  fst (orchestrate (no_choice_at 4) ascii_lower example_settings example_form
         empty_world)
  = Raise IndexError.
Proof. vm_compute. reflexivity. Qed.

Lemma calls_bounded_witness :
  calls (snd (orchestrate fixed_stub ascii_lower example_settings empty_topic_form
                empty_world))
  = [].
Proof.
  apply (proj2 (proj2 (calls_bounded fixed_stub ascii_lower example_settings
                         empty_topic_form))).
  right. right. left. reflexivity.
Defined.

Lemma validation_messages_witness :
  orchestrate fixed_stub ascii_lower example_settings empty_topic_form empty_world
  = (Raise StopException,
     {| calls := calls empty_world;
        page := page empty_world
                ++ [Error (utf8 "Please fill in both Topic and Audience.")];
        vars := vars empty_world |}).
Proof.
  apply (proj2 (validation_messages fixed_stub ascii_lower example_settings
                  empty_topic_form empty_world eq_refl)).
  - vm_compute; discriminate.
  - left; reflexivity.
Defined.
